(** * 4relplus: the relay board command-line tool (relay.c)

    A shallow embedding of the bit remapping, the stack addressing, the
    register access functions, board initialisation, the write-verify loops
    of the [write] command and the production self-test, together with the
    properties established for them. *)

From Stdlib Require Import ZArith List Bool Lia.
Import ListNotations.
Local Open Scope Z_scope.

(** ** Machine integers *)

(** Truncation to [u8], as performed by every assignment to a [u8] object. *)
Definition u8 (x : Z) : Z := x mod 256.

(** ** Constants of relay.h *)

(** Modelled from the spec: relay.h is not among the sources.  The channel
    range is [1,4] for relays and inputs (the remap tables below have four
    initialisers each). *)
Definition CHANNEL_NR_MIN : Z := 1.
Definition RELAY_CH_NR_MAX : Z := 4.
Definition IN_CH_NR_MAX : Z := 4.

(** Modelled from the spec: OutState is the enum {OFF=0, ON=1} followed by an
    invalid sentinel.  The C enum is an [int], so it is kept as [Z]. *)
Definition OutStateEnumType := Z.
Definition OFF : OutStateEnumType := 0.
Definition ON : OutStateEnumType := 1.
Definition STATE_COUNT : OutStateEnumType := 2.

(** Modelled from the spec: return codes of relay.h.  A bus operation yields
    ok or fail; the code compares results against [OK], [FAIL] and [ERROR]
    and treats negative values as failures, with [-1] for a failed open. *)
Definition OK : Z := 0.
Definition ERROR : Z := -1.
Definition FAIL : Z := -1.

(** ** Remap tables (relay.c:27-52) *)

Definition relayMaskRemap : list Z := [0x80; 0x40; 0x20; 0x10].
Definition relayChRemap : list Z := [7; 6; 5; 4].
Definition inMaskRemap : list Z := [0x08; 0x04; 0x02; 0x01].
Definition inChRemap : list Z := [3; 2; 1; 0].

(** Array subscript; indices used by the code are always within the table. *)
Definition idx (tbl : list Z) (i : Z) : Z := nth (Z.to_nat i) tbl 0.

(** The values taken by [i] in [for (i = 0; i < n; i++)]. *)
Definition upto (n : Z) : list Z := map Z.of_nat (seq 0 (Z.to_nat n)).

(** ** Bit remapper (relay.c:178-216) *)

Definition relayToIO (relay : Z) : Z :=
  fold_left
    (fun val i =>
       if negb (Z.land relay (Z.shiftl 1 i) =? 0)
       then u8 (val + idx relayMaskRemap i)
       else val)
    (upto RELAY_CH_NR_MAX) 0.

Definition IOToRelay (io : Z) : Z :=
  fold_left
    (fun val i =>
       if negb (Z.land io (idx relayMaskRemap i) =? 0)
       then u8 (val + Z.shiftl 1 i)
       else val)
    (upto RELAY_CH_NR_MAX) 0.

Definition IOToIn (io : Z) : Z :=
  fold_left
    (fun val i =>
       if Z.land io (idx inMaskRemap i) =? 0
       then u8 (val + Z.shiftl 1 i)
       else val)
    (upto IN_CH_NR_MAX) 0.

(** ** Stack addressing (relay.c:367-368, 695-696) *)

(** The [u8 st] computed from the stack level. *)
Definition stack_st (stack : Z) : Z :=
  u8 (Z.land stack 0x02 + Z.land 0x01 (Z.shiftr stack 2)
      + Z.land 0x04 (Z.shiftl stack 2)).

(** The bus address [add] opened by [doBoardInit]; the base address
    [RELAY8_HW_I2C_BASE_ADD] of relay.h is a parameter. *)
Definition stack_add (base stack : Z) : Z := Z.lxor (stack_st stack + base) 0x07.

(** The address opened by [boardCheck (base + st)] during enumeration. *)
Definition list_add (base i : Z) : Z := Z.lxor (base + stack_st i) 0x07.

(** ** Bounded quantification by enumeration *)

Definition forall_upto (n : Z) (p : Z -> bool) : bool := forallb p (upto n).

(** ** The bus collaborator *)

(** Modelled from the spec: the register addresses of relay.h are absent; the
    spec names the direction-configuration register, the output-state
    register and the status register that is read back. *)
Inductive reg : Type :=
| RELAY8_INPORT_REG_ADD
| RELAY8_OUTPORT_REG_ADD
| RELAY8_CFG_REG_ADD.

Definition reg_eqb (r1 r2 : reg) : bool :=
  match r1, r2 with
  | RELAY8_INPORT_REG_ADD, RELAY8_INPORT_REG_ADD => true
  | RELAY8_OUTPORT_REG_ADD, RELAY8_OUTPORT_REG_ADD => true
  | RELAY8_CFG_REG_ADD, RELAY8_CFG_REG_ADD => true
  | _, _ => false
  end.

(** Modelled from the spec: comm.c is not among the sources.  The bus is the
    synchronous collaborator [openDevice(address) -> handle | fail],
    [readRegister -> bytes | fail], [writeRegister -> ok | fail]; a failed
    open yields [-1], a failed read is [None] (the code never looks at the
    buffer then), a failed write is [false].  All transfers are one byte. *)
Class I2C (B : Type) : Type := {
  i2cSetup : Z -> B -> Z * B;
  i2cMem8Read : Z -> reg -> B -> option Z * B;
  i2cMem8Write : Z -> reg -> Z -> B -> bool * B
}.

(** The [int] returned by [i2cMem8Write]. *)
Definition write_rc (ok : bool) : Z := if ok then OK else FAIL.

(** How a command, or a loop of it, ends: it completes with a value, it
    leaves through [exit(1)], or the fuel given to its loops ran out. *)
Inductive Failure : Type :=
| InvalidArgument
| DeviceNotFound
| WriteFailed
| ReadFailed
| VerifyExhausted.

Inductive Run (A : Type) : Type :=
| Done (a : A)
| Exit1 (why : Failure)
| Fuel.
Arguments Done {A} a.
Arguments Exit1 {A} why.
Arguments Fuel {A}.

(** The last argument of [write <channel> <state>]: one of the keywords
    (up/on, down/off) or anything else, which goes through [atoi]. *)
Inductive StateArg : Type :=
| ArgOn
| ArgOff
| ArgNum (n : Z).

(** [argc] and the parsed [argv] of the write command. *)
Inductive WriteArgs : Type :=
| WriteChannel (stack pin : Z) (st : StateArg)
| WriteValue (stack val : Z)
| WriteUsage (stack : Z).

Section Board.

Context {B : Type} `{I2C B}.

(** [RELAY8_HW_I2C_BASE_ADD] and [RETRY_TIMES] of relay.h. *)
Variable RELAY8_HW_I2C_BASE_ADD : Z.
Variable RETRY_TIMES : Z.

(** *** Register access (relay.c:218-352) *)

Definition bad_channel (channel : Z) : bool :=
  (channel <? CHANNEL_NR_MIN) || (channel >? RELAY_CH_NR_MAX).

Definition relayChSet (dev channel : Z) (state : OutStateEnumType) (b : B)
  : Z * B :=
  if bad_channel channel then (ERROR, b)
  else
    match i2cMem8Read dev RELAY8_INPORT_REG_ADD b with
    | (None, b1) => (FAIL, b1)
    | (Some buff0, b1) =>
        let bit := Z.shiftl 1 (idx relayChRemap (channel - 1)) in
        if state =? OFF then
          let (resp, b2) :=
            i2cMem8Write dev RELAY8_OUTPORT_REG_ADD
              (u8 (Z.land buff0 (Z.lnot bit))) b1 in
          (write_rc resp, b2)
        else if state =? ON then
          let (resp, b2) :=
            i2cMem8Write dev RELAY8_OUTPORT_REG_ADD
              (u8 (Z.lor buff0 bit)) b1 in
          (write_rc resp, b2)
        else (ERROR, b1)
    end.

(** The state stored through the pointer by [relayChGet] for a byte read. *)
Definition chState (buff0 channel : Z) : OutStateEnumType :=
  if negb (Z.land buff0 (Z.shiftl 1 (idx relayChRemap (channel - 1))) =? 0)
  then ON else OFF.

(** [relayChGet] returns [OK] and stores the state, or returns [ERROR] and
    leaves [*state] alone: [Some state] and [None].  Callers pass the address
    of a local, so the null-pointer test never fires. *)
Definition relayChGet (dev channel : Z) (b : B)
  : option OutStateEnumType * B :=
  if bad_channel channel then (None, b)
  else
    match i2cMem8Read dev RELAY8_INPORT_REG_ADD b with
    | (None, b1) => (None, b1)
    | (Some buff0, b1) => (Some (chState buff0 channel), b1)
    end.

Definition relaySet (dev val : Z) (b : B) : Z * B :=
  let (resp, b1) :=
    i2cMem8Write dev RELAY8_OUTPORT_REG_ADD (relayToIO (Z.land 0xff val)) b in
  (write_rc resp, b1).

Definition relayGet (dev : Z) (b : B) : option Z * B :=
  match i2cMem8Read dev RELAY8_INPORT_REG_ADD b with
  | (None, b1) => (None, b1)
  | (Some buff0, b1) => (Some (IOToRelay buff0), b1)
  end.

(** The state stored by [inChGet] for a byte read: the shift count is taken
    from [inMaskRemap], as in the code. *)
Definition inChState (buff0 channel : Z) : OutStateEnumType :=
  if Z.land buff0 (Z.shiftl 1 (idx inMaskRemap (channel - 1))) =? 0
  then ON else OFF.

Definition inChGet (dev channel : Z) (b : B) : option OutStateEnumType * B :=
  if bad_channel channel then (None, b)
  else
    match i2cMem8Read dev RELAY8_INPORT_REG_ADD b with
    | (None, b1) => (None, b1)
    | (Some buff0, b1) => (Some (inChState buff0 channel), b1)
    end.

Definition inGet (dev : Z) (b : B) : option Z * B :=
  match i2cMem8Read dev RELAY8_INPORT_REG_ADD b with
  | (None, b1) => (None, b1)
  | (Some buff0, b1) => (Some (IOToIn buff0), b1)
  end.

(** *** Board session (relay.c:355-396) *)

Definition doBoardInit (stack : Z) (b : B) : Z * B :=
  if (stack <? 0) || (stack >? 7) then (ERROR, b)
  else
    let add := stack_add RELAY8_HW_I2C_BASE_ADD stack in
    let (dev, b1) := i2cSetup add b in
    if dev =? -1 then (ERROR, b1)
    else
      match i2cMem8Read dev RELAY8_CFG_REG_ADD b1 with
      | (None, b2) => (ERROR, b2)
      | (Some buff0, b2) =>
          if negb (buff0 =? 0x0f) then
            let (w1, b3) := i2cMem8Write dev RELAY8_CFG_REG_ADD 0x0f b2 in
            if 0 >? write_rc w1 then (ERROR, b3)
            else
              let (w2, b4) :=
                i2cMem8Write dev RELAY8_OUTPORT_REG_ADD 0 b3 in
              if 0 >? write_rc w2 then (ERROR, b4) else (dev, b4)
          else (dev, b2)
      end.

(** *** The write command (relay.c:421-527) *)

(** The loop of lines 470-483 on [(retry, stateR)]; it yields the final
    [retry]. *)
Fixpoint channelLoop (fuel : nat) (dev pin : Z) (state : OutStateEnumType)
  (retry : Z) (stateR : OutStateEnumType) (b : B) : Run Z * B :=
  if (retry >? 0) && negb (stateR =? state) then
    match fuel with
    | O => (Fuel, b)
    | S fuel' =>
        let (rc, b1) := relayChSet dev (u8 pin) state b in
        if negb (OK =? rc) then (Exit1 WriteFailed, b1)
        else
          match relayChGet dev (u8 pin) b1 with
          | (None, b2) => (Exit1 ReadFailed, b2)
          | (Some stateR', b2) =>
              channelLoop fuel' dev pin state (retry - 1) stateR' b2
          end
    end
  else (Done retry, b).

(** Lines 468-494: the single-channel write-verify. *)
Definition verifyChannel (fuel : nat) (dev pin : Z)
  (state : OutStateEnumType) (b : B) : Run unit * B :=
  match channelLoop fuel dev pin state RETRY_TIMES STATE_COUNT b with
  | (Done retry, b1) =>
      if retry =? 0 then (Exit1 VerifyExhausted, b1) else (Done tt, b1)
  | (Exit1 why, b1) => (Exit1 why, b1)
  | (Fuel, b1) => (Fuel, b1)
  end.

(** The loop of lines 507-520 on [(retry, valR)]: [retry] is tested but
    never assigned in the body. *)
Fixpoint valueLoop (fuel : nat) (dev val retry valR : Z) (b : B)
  : Run Z * B :=
  if (retry >? 0) && negb (valR =? val) then
    match fuel with
    | O => (Fuel, b)
    | S fuel' =>
        let (rc, b1) := relaySet dev val b in
        if negb (OK =? rc) then (Exit1 WriteFailed, b1)
        else
          match relayGet dev b1 with
          | (None, b2) => (Exit1 ReadFailed, b2)
          | (Some valR', b2) => valueLoop fuel' dev val retry valR' b2
          end
    end
  else (Done retry, b).

(** Lines 505-525: the whole-register write-verify. *)
Definition verifyValue (fuel : nat) (dev val : Z) (b : B) : Run unit * B :=
  match valueLoop fuel dev val RETRY_TIMES (-1) b with
  | (Done retry, b1) =>
      if retry =? 0 then (Exit1 VerifyExhausted, b1) else (Done tt, b1)
  | (Exit1 why, b1) => (Exit1 why, b1)
  | (Fuel, b1) => (Fuel, b1)
  end.

Definition doRelayWrite (fuel : nat) (args : WriteArgs) (b : B)
  : Run unit * B :=
  match args with
  | WriteUsage _ => (Exit1 InvalidArgument, b)
  | WriteChannel stack pin st =>
      let (dev, b1) := doBoardInit stack b in
      if dev <=? 0 then (Exit1 DeviceNotFound, b1)
      else if (pin <? CHANNEL_NR_MIN) || (pin >? RELAY_CH_NR_MAX)
      then (Exit1 InvalidArgument, b1)
      else
        match st with
        | ArgOn => verifyChannel fuel dev pin ON b1
        | ArgOff => verifyChannel fuel dev pin OFF b1
        | ArgNum n =>
            if (n >=? STATE_COUNT) || (n <? 0)
            then (Exit1 InvalidArgument, b1)
            else verifyChannel fuel dev pin n b1
        end
  | WriteValue stack val =>
      let (dev, b1) := doBoardInit stack b in
      if dev <=? 0 then (Exit1 DeviceNotFound, b1)
      else if (val <? 0) || (val >? 255) then (Exit1 InvalidArgument, b1)
      else verifyValue fuel dev val b1
  end.

End Board.

(** ** The production self-test (relay.c:718-849) *)

(** What the self-test observes and leaves behind besides the bus: the
    number of times the watcher thread was polled. *)
Record TestState (B : Type) : Type := mkTestState {
  bus : B;
  polls : nat
}.
Arguments mkTestState {B} bus polls.
Arguments bus {B} t.
Arguments polls {B} t.

(** How [doTest] ends: it prints the PASS or FAIL line (to the result file
    when one is open) and returns, it leaves through [exit(1)], or it is
    still sweeping when the fuel runs out. *)
Inductive TestEnd : Type :=
| Reported (pass toFile : bool)
| Aborted
| Sweeping.

Section SelfTest.

Context {B : Type} `{I2C B}.

Variable RELAY8_HW_I2C_BASE_ADD : Z.
Variable RETRY_TIMES : Z.

(** Modelled from the spec: thread.c is not among the sources.  The
    watcher posts its result once a key is pressed; the sweep polls it with
    [checkThreadResult()], whose successive results are given by the
    function below ([0]: no key yet, [YES]: the operator confirmed). *)
Variable checkThreadResult : nat -> Z.
Variable YES : Z.

Definition relayOrder : list Z := [1; 2; 3; 4].

(** The loop of lines 768-780 on [(retry, valR)]. *)
Fixpoint onLoop (fuel : nat) (dev ch retry valR relVal : Z) (b : B)
  : option (Z * B) :=
  if (retry >? 0) && (Z.land valR relVal =? 0) then
    match fuel with
    | O => None
    | S fuel' =>
        let (rc, b1) := relayChSet dev ch ON b in
        if negb (OK =? rc) then Some (0, b1)
        else
          match relayGet dev b1 with
          | (None, b2) => onLoop fuel' dev ch 0 valR relVal b2
          | (Some valR', b2) => onLoop fuel' dev ch retry valR' relVal b2
          end
    end
  else Some (retry, b).

(** The loop of lines 800-810 on [(retry, valR)]. *)
Fixpoint offLoop (fuel : nat) (dev ch retry valR relVal : Z) (b : B)
  : option (Z * B) :=
  if (retry >? 0) && negb (Z.land valR relVal =? 0) then
    match fuel with
    | O => None
    | S fuel' =>
        let (rc, b1) := relayChSet dev ch OFF b in
        let retry1 := if negb (OK =? rc) then 0 else retry in
        match relayGet dev b1 with
        | (None, b2) => offLoop fuel' dev ch 0 valR relVal b2
        | (Some valR', b2) => offLoop fuel' dev ch retry1 valR' relVal b2
        end
    end
  else Some (retry, b).

(** One of the two [for] loops (lines 757-789 when [on], 790-819 otherwise)
    over the remaining indices [ixs]; it yields [relayResult]. *)
Fixpoint sweep (on : bool) (fuel : nat) (dev : Z) (ixs : list Z)
  (relayResult : Z) (t : TestState B) : Run Z * TestState B :=
  match ixs with
  | [] => (Done relayResult, t)
  | i :: ixs' =>
      let relayResult := checkThreadResult (polls t) in
      let t1 := mkTestState (bus t) (S (polls t)) in
      if negb (relayResult =? 0) then (Done relayResult, t1)
      else
        let relVal := Z.shiftl (u8 1) (idx relayOrder i - 1) in
        let loop :=
          if on
          then onLoop fuel dev (idx relayOrder i) RETRY_TIMES 0 relVal
          else offLoop fuel dev (idx relayOrder i) RETRY_TIMES 0xff relVal in
        match loop (bus t1) with
        | None => (Fuel, t1)
        | Some (retry, b1) =>
            let t2 := mkTestState b1 (polls t1) in
            if retry =? 0 then (Exit1 WriteFailed, t2)
            else sweep on fuel dev ixs' relayResult t2
        end
  end.

(** The loop of lines 755-820. *)
Fixpoint testLoop (fuel : nat) (dev relayResult : Z) (t : TestState B)
  : Run Z * TestState B :=
  if relayResult =? 0 then
    match fuel with
    | O => (Fuel, t)
    | S fuel' =>
        match sweep true fuel dev (upto RELAY_CH_NR_MAX) relayResult t with
        | (Done r1, t1) =>
            match sweep false fuel dev (upto RELAY_CH_NR_MAX) r1 t1 with
            | (Done r2, t2) => testLoop fuel' dev r2 t2
            | other => other
            end
        | other => other
        end
    end
  else (Done relayResult, t).

(** [doTest] for [<id> test [file]]; [file] tells whether a result file
    was given and could be opened.  The command is dispatched on
    [argv[2]] being "test", so the comparison of line 749 holds. *)
Definition doTest (fuel : nat) (stack : Z) (file : bool) (t : TestState B)
  : TestEnd * TestState B :=
  let (dev, b1) := doBoardInit RELAY8_HW_I2C_BASE_ADD stack (bus t) in
  let t1 := mkTestState b1 (polls t) in
  if dev <=? 0 then (Aborted, t1)
  else
    match testLoop fuel dev 0 t1 with
    | (Exit1 _, t2) => (Aborted, t2)
    | (Fuel, t2) => (Sweeping, t2)
    | (Done relayResult, t2) =>
        let (_, b3) := relaySet dev 0 (bus t2) in
        (Reported (relayResult =? YES) file, mkTestState b3 (polls t2))
    end.

End SelfTest.

(** ** Two buses *)

(** A scripted bus double: the outcome of the n-th read and of the n-th
    write are fixed in advance, and every write issued is recorded. *)
Record Mock : Type := mkMock {
  fd : Z -> Z;
  rd : nat -> option Z;
  wr : nat -> bool;
  nrd : nat;
  wlog : list (reg * Z)
}.

#[export] Instance Mock_I2C : I2C Mock := {
  i2cSetup add m := (fd m add, m);
  i2cMem8Read dev r m :=
    (rd m (nrd m), mkMock (fd m) (rd m) (wr m) (S (nrd m)) (wlog m));
  i2cMem8Write dev r v m :=
    (wr m (length (wlog m)),
     mkMock (fd m) (rd m) (wr m) (nrd m) (wlog m ++ [(r, v)]))
}.

(** Modelled from the spec: a board that answers every transfer.  Outputs
    and inputs occupy distinct nibbles of the register that is read back;
    only the output nibble follows what is written to the output register,
    the input nibble follows the pins; writes are visible to the next
    read. *)
Record Expander : Type := mkExpander {
  cfg_reg : Z;
  out_reg : Z;
  in_pins : Z
}.

Definition inport (e : Expander) : Z :=
  Z.lor (Z.land (out_reg e) 0xf0) (Z.land (in_pins e) 0x0f).

#[export] Instance Expander_I2C : I2C Expander := {
  i2cSetup add e := (3, e);
  i2cMem8Read dev r e :=
    (Some match r with
          | RELAY8_INPORT_REG_ADD => inport e
          | RELAY8_OUTPORT_REG_ADD => out_reg e
          | RELAY8_CFG_REG_ADD => cfg_reg e
          end, e);
  i2cMem8Write dev r v e :=
    (true,
     match r with
     | RELAY8_INPORT_REG_ADD => e
     | RELAY8_OUTPORT_REG_ADD => mkExpander (cfg_reg e) (u8 v) (in_pins e)
     | RELAY8_CFG_REG_ADD => mkExpander (u8 v) (out_reg e) (in_pins e)
     end)
}.

(** ** Scripted buses and observations used in the statements *)

(** A board whose every register reads as the sentinel [0x0f] and whose
    every transfer succeeds. *)
Definition initialised_mock : Mock :=
  mkMock (fun _ => 3) (fun _ => Some 0x0f) (fun _ => true) 0 [].

(** The byte read back once [channel] was switched on from a readback [b]. *)
Definition readback_on (b channel : Z) : Z :=
  Z.lor
    (Z.land (u8 (u8 (Z.lor b (Z.shiftl 1 (idx relayChRemap (channel - 1))))))
       240)
    (Z.land b 15).

(** The bus after [r] more reads and the writes [ws]. *)
Definition advance (m : Mock) (r : nat) (ws : list (reg * Z)) : Mock :=
  mkMock (fd m) (rd m) (wr m) (r + nrd m) (wlog m ++ ws).

(** The byte that [relayChSet] writes for a byte read. *)
Definition setByte (state buff0 channel : Z) : Z :=
  let bit := Z.shiftl 1 (idx relayChRemap (channel - 1)) in
  if state =? OFF then u8 (Z.land buff0 (Z.lnot bit)) else u8 (Z.lor buff0 bit).

(** A bus on which every transfer succeeds and the bytes read are scripted. *)
Definition healthy (bytes : nat -> Z) : Mock :=
  mkMock (fun _ => 3) (fun n => Some (bytes n)) (fun _ => true) 0 [].

(** A healthy bus whose readback of relay 1 shows ON from the tenth pass
    on: read 19 is the tenth readback. *)
Definition tenth_pass_bytes (n : nat) : Z :=
  if (19 <=? n)%nat then 0x80 else 0x00.

(** The last write issued on the bus is the whole-register write of 0. *)
Definition all_off_last (m : Mock) : Prop :=
  last (wlog m) (RELAY8_INPORT_REG_ADD, 0) = (RELAY8_OUTPORT_REG_ADD, 0).

(** An initialised board on which the third read, the readback of the
    first sweep step, fails. *)
Definition readback_fails : Mock :=
  mkMock (fun _ => 3)
    (fun n => if (n =? 2)%nat then None else Some 0x0f)
    (fun _ => true) 0 [].

(** ** Enumeration and the read commands (relay.c:398-414, 534-641, 683-713) *)

(** [argc] and the parsed [argv] of the read and inread commands. *)
Inductive ReadArgs : Type :=
| ReadChannel (stack pin : Z)
| ReadAll (stack : Z)
| ReadUsage (stack : Z).

Section Commands.

Context {B : Type} `{I2C B}.

Variable RELAY8_HW_I2C_BASE_ADD : Z.

Definition boardCheck (hwAdd : Z) (b : B) : Z * B :=
  let hwAdd := Z.lxor hwAdd 0x07 in
  let (dev, b1) := i2cSetup hwAdd b in
  if dev =? -1 then (FAIL, b1)
  else
    match i2cMem8Read dev RELAY8_CFG_REG_ADD b1 with
    | (None, b2) => (ERROR, b2)
    | (Some _, b2) => (OK, b2)
    end.

(** The loop of lines 693-701 over the remaining values of [i]; [ids] is the
    filled part of the array, [cnt] its length. *)
Fixpoint listLoop (ixs : list Z) (ids : list Z) (b : B) : list Z * B :=
  match ixs with
  | [] => (ids, b)
  | i :: ixs' =>
      let st := stack_st i in
      let (rc, b1) := boardCheck (RELAY8_HW_I2C_BASE_ADD + st) b in
      listLoop ixs' (if rc =? OK then ids ++ [i] else ids) b1
  end.

(** [doList] prints the number of boards found and then their ids from the
    last one stored to the first: the count and the ids as printed. *)
Definition doList (b : B) : (Z * list Z) * B :=
  let (ids, b1) := listLoop (upto 8) [] b in
  ((Z.of_nat (length ids), rev ids), b1).

(** [doRelayRead] prints one number: a channel state as 0 or 1, or the
    mask of all relays. *)
Definition doRelayRead (args : ReadArgs) (b : B) : Run Z * B :=
  let stack :=
    match args with
    | ReadChannel stack _ => stack
    | ReadAll stack => stack
    | ReadUsage stack => stack
    end in
  let (dev, b1) := doBoardInit RELAY8_HW_I2C_BASE_ADD stack b in
  if dev <=? 0 then (Exit1 DeviceNotFound, b1)
  else
    match args with
    | ReadChannel _ pin =>
        if (pin <? CHANNEL_NR_MIN) || (pin >? RELAY_CH_NR_MAX)
        then (Exit1 InvalidArgument, b1)
        else
          match relayChGet dev (u8 pin) b1 with
          | (None, b2) => (Exit1 ReadFailed, b2)
          | (Some state, b2) =>
              (Done (if negb (state =? 0) then 1 else 0), b2)
          end
    | ReadAll _ =>
        match relayGet dev b1 with
        | (None, b2) => (Exit1 ReadFailed, b2)
        | (Some val, b2) => (Done val, b2)
        end
    | ReadUsage _ => (Exit1 InvalidArgument, b1)
    end.

Definition doInRead (args : ReadArgs) (b : B) : Run Z * B :=
  let stack :=
    match args with
    | ReadChannel stack _ => stack
    | ReadAll stack => stack
    | ReadUsage stack => stack
    end in
  let (dev, b1) := doBoardInit RELAY8_HW_I2C_BASE_ADD stack b in
  if dev <=? 0 then (Exit1 DeviceNotFound, b1)
  else
    match args with
    | ReadChannel _ pin =>
        if (pin <? CHANNEL_NR_MIN) || (pin >? IN_CH_NR_MAX)
        then (Exit1 InvalidArgument, b1)
        else
          match inChGet dev (u8 pin) b1 with
          | (None, b2) => (Exit1 ReadFailed, b2)
          | (Some state, b2) =>
              (Done (if negb (state =? 0) then 1 else 0), b2)
          end
    | ReadAll _ =>
        match inGet dev b1 with
        | (None, b2) => (Exit1 ReadFailed, b2)
        | (Some val, b2) => (Done val, b2)
        end
    | ReadUsage _ => (Exit1 InvalidArgument, b1)
    end.

End Commands.

(** ** Further observations used in the statements *)

(** The byte read back once [channel] was switched off from a readback
    [b]. *)
Definition readback_off (b channel : Z) : Z :=
  Z.lor
    (Z.land
       (u8 (u8 (Z.land b
                  (Z.lnot (Z.shiftl 1 (idx relayChRemap (channel - 1)))))))
       240)
    (Z.land b 15).

(** The board as [doBoardInit] leaves it. *)
Definition init_board (e : Expander) : Expander :=
  if cfg_reg e =? 0x0f then e else mkExpander 0x0f 0 (in_pins e).

(** The stack level a read command opens. *)
Definition read_stack (args : ReadArgs) : Z :=
  match args with
  | ReadChannel stack _ => stack
  | ReadAll stack => stack
  | ReadUsage stack => stack
  end.

(** The board after [relayChSet] switched [channel] to [state]. *)
Definition set_board (state channel : Z) (e : Expander) : Expander :=
  mkExpander (cfg_reg e) (u8 (setByte state (inport e) channel)) (in_pins e).

(** Whether the [k]-th read from now on succeeds. *)
Definition responds (m : Mock) (k : nat) : bool :=
  match rd m (k + nrd m) with
  | Some _ => true
  | None => false
  end.

(** * Properties *)

Lemma upto_In (n x : Z) : 0 <= x < n -> In x (upto n).
Proof.
  intros Hx. unfold upto. apply in_map_iff. exists (Z.to_nat x). split.
  - lia.
  - apply in_seq. lia.
Qed.

Lemma forall_upto_spec (n : Z) (p : Z -> bool) :
  forall_upto n p = true -> forall x, 0 <= x < n -> p x = true.
Proof.
  unfold forall_upto. intros H x Hx.
  rewrite forallb_forall in H. apply H, upto_In, Hx.
Qed.

(** ** Properties of the pure functions *)

Lemma lxor_cancel (a b m : Z) : Z.lxor a m = Z.lxor b m -> a = b.
Proof.
  intros H.
  rewrite <- (Z.lxor_0_r a), <- (Z.lxor_0_r b), <- (Z.lxor_nilpotent m).
  rewrite <- !Z.lxor_assoc. now rewrite H.
Qed.

Lemma stack_st_swap_table :
  forall_upto 8 (fun p => forall_upto 8 (fun q =>
    implb (stack_st p =? stack_st q) (p =? q))) = true.
Proof. vm_compute. reflexivity. Qed.

Lemma stack_st_inj (p q : Z) :
  0 <= p <= 7 -> 0 <= q <= 7 -> stack_st p = stack_st q -> p = q.
Proof.
  intros Hp Hq E.
  assert (Hpq := forall_upto_spec _ _ stack_st_swap_table p ltac:(lia)).
  cbv beta in Hpq.
  assert (H := forall_upto_spec _ _ Hpq q ltac:(lia)).
  cbv beta in H. rewrite E, Z.eqb_refl in H. simpl in H.
  now apply Z.eqb_eq.
Qed.

(** C5: for every base address, two distinct stack positions in [0,7] are
    given distinct bus addresses by the transform of [doBoardInit]. *)
Theorem stack_add_injective (base p q : Z) :
  0 <= p <= 7 -> 0 <= q <= 7 -> p <> q ->
  stack_add base p <> stack_add base q.
Proof.
  intros Hp Hq Hne E. apply Hne.
  apply lxor_cancel in E.
  apply stack_st_inj; [assumption | assumption | lia].
Qed.

Lemma stack_add_injective_witness :
  stack_add 0x38 1 <> stack_add 0x38 4.
Proof. apply stack_add_injective; lia. Defined.

(** The enumeration loop of [doList] probes the same addresses. *)
Lemma list_add_eq (base i : Z) : list_add base i = stack_add base i.
Proof. unfold list_add, stack_add. now rewrite Z.add_comm. Qed.

(** The sum written in the code is the bitwise or of the three fields. *)
Lemma stack_st_lor (pos : Z) :
  0 <= pos <= 7 ->
  stack_st pos =
  Z.lor (Z.lor (Z.land pos 2) (Z.land (Z.shiftr pos 2) 1))
        (Z.land (Z.shiftl pos 2) 4).
Proof.
  intros H.
  assert (T : forall_upto 8 (fun p =>
    stack_st p =? Z.lor (Z.lor (Z.land p 2) (Z.land (Z.shiftr p 2) 1))
                        (Z.land (Z.shiftl p 2) 4)) = true)
    by (vm_compute; reflexivity).
  apply Z.eqb_eq. apply (forall_upto_spec _ _ T). lia.
Qed.

(** C6: converting a 4-bit logical relay mask to the physical mask and back
    gives the mask again. *)
Theorem IOToRelay_relayToIO (m : Z) :
  0 <= m <= 15 -> IOToRelay (relayToIO m) = m.
Proof.
  intros H.
  assert (T : forall_upto 16 (fun x => IOToRelay (relayToIO x) =? x) = true)
    by (vm_compute; reflexivity).
  apply Z.eqb_eq. apply (forall_upto_spec _ _ T). lia.
Qed.

Lemma IOToRelay_relayToIO_witness : IOToRelay (relayToIO 10) = 10.
Proof. apply IOToRelay_relayToIO. lia. Defined.

(** ** The input path *)

Lemma IOToIn_table :
  forall_upto 256 (fun b => forall_upto 4 (fun i =>
    Bool.eqb (Z.testbit (IOToIn b) i) (negb (Z.testbit b (idx inChRemap i)))
    && (IOToIn b <=? 15) && (0 <=? IOToIn b))) = true.
Proof. vm_compute. reflexivity. Qed.

(** C8: the input mask is active-low.  For a register byte [b] and an input
    channel [c] in [1,4], bit [c-1] of [IOToIn b] is set exactly when the
    physical bit of that channel, [inChRemap[c-1]], is clear in [b]; the mask
    has no other bit. *)
Theorem IOToIn_active_low (b c : Z) :
  0 <= b <= 255 -> 1 <= c <= 4 ->
  Z.testbit (IOToIn b) (c - 1) = negb (Z.testbit b (idx inChRemap (c - 1)))
  /\ 0 <= IOToIn b <= 15.
Proof.
  intros Hb Hc.
  assert (T := forall_upto_spec _ _ IOToIn_table b ltac:(lia)).
  cbv beta in T.
  assert (U := forall_upto_spec _ _ T (c - 1) ltac:(lia)).
  cbv beta in U.
  apply andb_prop in U. destruct U as [U U3].
  apply andb_prop in U. destruct U as [U1 U2].
  apply Bool.eqb_prop in U1. split; [exact U1 | lia].
Qed.

(** With the byte [0b1111_0111] only channel 1 is asserted. *)
Lemma IOToIn_0xF7 : IOToIn 0xF7 = 1.
Proof. reflexivity. Qed.

(** The per-channel read [inChGet] is a different computation: it shifts by
    the mask table, so for channel 1 it tests bit 8 of a byte and reports
    [ON] whatever the byte. *)
Lemma inChState_channel_1 (b : Z) : 0 <= b <= 255 -> inChState b 1 = ON.
Proof.
  intros Hb.
  assert (T : forall_upto 256 (fun x => inChState x 1 =? ON) = true)
    by (vm_compute; reflexivity).
  apply Z.eqb_eq. apply (forall_upto_spec _ _ T). lia.
Qed.

Lemma IOToIn_active_low_witness :
  (Z.testbit (IOToIn 0xF7) (1 - 1)
   = negb (Z.testbit 0xF7 (idx inChRemap (1 - 1)))
   /\ 0 <= IOToIn 0xF7 <= 15)
  /\ IOToIn 0xF7 = 1.
Proof.
  split; [apply IOToIn_active_low; lia | reflexivity].
Defined.

(** ** Board initialisation on the scripted bus *)

(** C9: when the board answers and its direction-configuration register
    already reads as the sentinel [0x0f], [doBoardInit] returns the handle
    after that single read and has issued no register write. *)
Theorem doBoardInit_initialised_no_write (base stack : Z) (m : Mock) :
  0 <= stack <= 7 ->
  fd m (stack_add base stack) <> -1 ->
  rd m (nrd m) = Some 0x0f ->
  doBoardInit base stack m
  = (fd m (stack_add base stack),
     mkMock (fd m) (rd m) (wr m) (S (nrd m)) (wlog m)).
Proof.
  intros Hs Hfd Hrd. unfold doBoardInit.
  replace ((stack <? 0) || (stack >? 7)) with false
    by (symmetry; apply orb_false_iff; lia).
  cbn [i2cSetup i2cMem8Read Mock_I2C fd rd wr nrd wlog].
  apply Z.eqb_neq in Hfd. rewrite Hfd, Hrd. reflexivity.
Qed.

Lemma doBoardInit_initialised_no_write_witness :
  doBoardInit 0x38 2 initialised_mock
  = (3, mkMock (fun _ => 3) (fun _ => Some 0x0f) (fun _ => true) 1 []).
Proof.
  apply (doBoardInit_initialised_no_write 0x38 2 initialised_mock).
  - lia.
  - simpl. lia.
  - reflexivity.
Defined.

(** ** Single-channel register access *)

Lemma bad_channel_false (c : Z) : 1 <= c <= 4 -> bad_channel c = false.
Proof.
  intros Hc. unfold bad_channel, CHANNEL_NR_MIN, RELAY_CH_NR_MAX.
  apply orb_false_iff. lia.
Qed.

(** C10: for a channel in [1,4] and a state that is neither [ON] nor [OFF],
    [relayChSet] returns an error after its one register read and issues no
    write: the write log of the bus is as before, and a board that answers
    keeps its registers. *)
Theorem relayChSet_invalid_state (dev c state : Z) (m : Mock) (e : Expander) :
  1 <= c <= 4 -> state <> ON -> state <> OFF ->
  (fst (relayChSet dev c state m) = ERROR
   /\ wlog (snd (relayChSet dev c state m)) = wlog m
   /\ nrd (snd (relayChSet dev c state m)) = S (nrd m))
  /\ relayChSet dev c state e = (ERROR, e).
Proof.
  intros Hc Hon Hoff. unfold relayChSet.
  rewrite (bad_channel_false c Hc).
  apply Z.eqb_neq in Hon, Hoff. rewrite Hon, Hoff.
  cbn [i2cMem8Read Mock_I2C Expander_I2C].
  split; [| reflexivity].
  destruct (rd m (nrd m)); cbn; auto.
Qed.

Lemma relayChSet_invalid_state_witness :
  (fst (relayChSet 3 2 STATE_COUNT initialised_mock) = ERROR
   /\ wlog (snd (relayChSet 3 2 STATE_COUNT initialised_mock)) = []
   /\ nrd (snd (relayChSet 3 2 STATE_COUNT initialised_mock)) = 1%nat)
  /\ relayChSet 3 2 STATE_COUNT (mkExpander 0x0f 0x50 0x03)
     = (ERROR, mkExpander 0x0f 0x50 0x03).
Proof.
  apply (relayChSet_invalid_state 3 2 STATE_COUNT initialised_mock
           (mkExpander 0x0f 0x50 0x03)).
  - lia.
  - discriminate.
  - discriminate.
Defined.

(** *** Read-modify-write on a board that answers *)

Lemma land_240_byte (x : Z) : Z.land x 240 = Z.land (x mod 256) 240.
Proof.
  change 256 with (2 ^ 8). rewrite <- Z.land_ones by lia.
  rewrite <- Z.land_assoc. reflexivity.
Qed.

Lemma land_15_mod (x : Z) : Z.land x 15 = x mod 16.
Proof. change 15 with (Z.ones 4). now rewrite Z.land_ones by lia. Qed.

Lemma nibbles_table :
  forall_upto 256 (fun o => forall_upto 16 (fun p =>
    let b := Z.lor (Z.land o 240) p in
    (0 <=? b) && (b <? 256))) = true.
Proof. vm_compute. reflexivity. Qed.

Lemma inport_byte (e : Expander) : 0 <= inport e < 256.
Proof.
  unfold inport. rewrite land_240_byte, land_15_mod.
  assert (Ho : 0 <= out_reg e mod 256 < 256) by (apply Z.mod_pos_bound; lia).
  assert (Hp : 0 <= in_pins e mod 16 < 16) by (apply Z.mod_pos_bound; lia).
  assert (T := forall_upto_spec _ _ nibbles_table _ Ho). cbv beta in T.
  assert (U := forall_upto_spec _ _ T _ Hp). cbv beta zeta in U.
  apply andb_prop in U. lia.
Qed.

Lemma inport_low (e : Expander) : Z.land (in_pins e) 15 = Z.land (inport e) 15.
Proof.
  unfold inport. rewrite Z.land_lor_distr_l, <- !Z.land_assoc.
  change (Z.land 240 15) with 0. change (Z.land 15 15) with 15.
  now rewrite Z.land_0_r, Z.lor_0_l.
Qed.

Lemma readback_on_table :
  forall_upto 256 (fun b => forall_upto 4 (fun i =>
    let c := i + 1 in
    (chState (readback_on b c) c =? ON)
    && (IOToRelay (readback_on b c)
        =? Z.lor (IOToRelay b) (Z.shiftl 1 (c - 1)))
    && forall_upto 4 (fun j =>
         let c' := j + 1 in
         (c' =? c) || (chState (readback_on b c) c' =? chState b c')))) = true.
Proof. vm_compute. reflexivity. Qed.

Lemma relayChSet_ON_Expander (dev c : Z) (e : Expander) :
  1 <= c <= 4 ->
  relayChSet dev c ON e
  = (OK, mkExpander (cfg_reg e)
           (u8 (u8 (Z.lor (inport e)
                          (Z.shiftl 1 (idx relayChRemap (c - 1))))))
           (in_pins e)).
Proof.
  intros Hc. unfold relayChSet. rewrite (bad_channel_false c Hc).
  reflexivity.
Qed.

(** C7: on a board that answers, switching a channel [c] in [1,4] on is a
    read-modify-write that touches that channel only: [relayChSet] succeeds,
    [relayChGet] then reports [ON] for [c] and the former state for every
    other channel, and the mask of [relayGet] is the former mask with bit
    [c-1] set. *)
Theorem relayChSet_ON_isolated (dev c : Z) (e : Expander) :
  1 <= c <= 4 ->
  let e1 := snd (relayChSet dev c ON e) in
  fst (relayChSet dev c ON e) = OK
  /\ fst (relayChGet dev c e1) = Some ON
  /\ (forall c', 1 <= c' <= 4 -> c' <> c ->
        fst (relayChGet dev c' e1) = fst (relayChGet dev c' e))
  /\ (forall v, fst (relayGet dev e) = Some v ->
        fst (relayGet dev e1) = Some (Z.lor v (Z.shiftl 1 (c - 1)))).
Proof.
  intros Hc. rewrite (relayChSet_ON_Expander dev c e Hc).
  cbv zeta. cbn [fst snd].
  set (e1 := mkExpander _ _ _).
  assert (R : inport e1 = readback_on (inport e) c).
  { unfold e1, inport at 1, readback_on. cbn [out_reg in_pins].
    now rewrite inport_low. }
  assert (T := forall_upto_spec _ _ readback_on_table _ (inport_byte e)).
  cbv beta in T.
  assert (U := forall_upto_spec _ _ T (c - 1) ltac:(lia)).
  cbv beta zeta in U. replace (c - 1 + 1) with c in U by lia.
  apply andb_prop in U. destruct U as [U U3].
  apply andb_prop in U. destruct U as [U1 U2].
  apply Z.eqb_eq in U1, U2.
  unfold relayChGet, relayGet. cbn [i2cMem8Read Expander_I2C fst].
  rewrite R. repeat split.
  - rewrite (bad_channel_false c Hc). cbn [fst]. now rewrite U1.
  - intros c' Hc' Hne. rewrite (bad_channel_false c' Hc'). cbn [fst].
    assert (V := forall_upto_spec _ _ U3 (c' - 1) ltac:(lia)).
    cbv beta zeta in V. replace (c' - 1 + 1) with c' in V by lia.
    apply orb_prop in V. destruct V as [V | V].
    + apply Z.eqb_eq in V. contradiction.
    + apply Z.eqb_eq in V. now rewrite V.
  - intros v Hv. injection Hv as <-. now rewrite U2.
Qed.

(** From all relays off, channel 2 then channel 4 are switched on: the
    masks read are [0b0010] and [0b1010]. *)
Lemma relayChSet_ON_isolated_witness :
  let e0 := mkExpander 0x0f 0x00 0x0f in
  let e1 := snd (relayChSet 3 2 ON e0) in
  let e2 := snd (relayChSet 3 4 ON e1) in
  fst (relayGet 3 e1) = Some 2 /\ fst (relayGet 3 e2) = Some 10
  /\ fst (relayChGet 3 2 e1) = Some ON.
Proof.
  intros e0 e1 e2.
  destruct (relayChSet_ON_isolated 3 2 e0 ltac:(lia)) as (_ & G & _ & A).
  destruct (relayChSet_ON_isolated 3 4 e1 ltac:(lia)) as (_ & _ & _ & A').
  split; [| split].
  - exact (A 0 eq_refl).
  - exact (A' 2 (A 0 eq_refl)).
  - exact G.
Defined.

(** ** The single-channel write-verify on the scripted bus *)

Lemma advance_advance (m : Mock) (r r' : nat) (ws ws' : list (reg * Z)) :
  advance (advance m r ws) r' ws' = advance m (r' + r) (ws ++ ws').
Proof.
  unfold advance. cbn [fd rd wr nrd wlog].
  now rewrite Nat.add_assoc, app_assoc.
Qed.

Section ChannelAttempts.

Variables dev pin : Z.
Variable state : OutStateEnumType.
Hypothesis pin_range : 1 <= pin <= 4.
Hypothesis state_valid : state = ON \/ state = OFF.

Lemma u8_pin : u8 pin = pin.
Proof. unfold u8. apply Z.mod_small. lia. Qed.

Lemma relayChSet_Mock (m : Mock) (b0 : Z) :
  rd m (nrd m) = Some b0 ->
  relayChSet dev pin state m
  = (write_rc (wr m (length (wlog m))),
     advance m 1 [(RELAY8_OUTPORT_REG_ADD, setByte state b0 pin)]).
Proof.
  intros Hrd. unfold relayChSet, setByte.
  rewrite (bad_channel_false pin pin_range).
  cbn [i2cMem8Read i2cMem8Write Mock_I2C fd rd wr nrd wlog].
  rewrite Hrd.
  destruct state_valid as [-> | ->]; reflexivity.
Qed.

Lemma relayChGet_Mock (m : Mock) (b1 : Z) :
  rd m (nrd m) = Some b1 ->
  relayChGet dev pin m = (Some (chState b1 pin), advance m 1 []).
Proof.
  intros Hrd. unfold relayChGet, advance.
  rewrite (bad_channel_false pin pin_range).
  cbn [i2cMem8Read Mock_I2C fd rd wr nrd wlog].
  now rewrite Hrd, app_nil_r.
Qed.

(** One pass through the loop body when the write and both reads
    succeed. *)
Lemma channelLoop_step (fuel : nat) (retry stateR b0 b1 : Z) (m : Mock) :
  0 < retry -> stateR <> state ->
  rd m (nrd m) = Some b0 -> rd m (S (nrd m)) = Some b1 ->
  wr m (length (wlog m)) = true ->
  channelLoop (S fuel) dev pin state retry stateR m
  = channelLoop fuel dev pin state (retry - 1) (chState b1 pin)
      (advance m 2 [(RELAY8_OUTPORT_REG_ADD, setByte state b0 pin)]).
Proof.
  intros Hr Hs H0 H1 Hw. cbn [channelLoop].
  replace (retry >? 0) with true by (symmetry; lia).
  apply Z.eqb_neq in Hs. rewrite Hs. cbn [negb andb].
  rewrite u8_pin, (relayChSet_Mock m b0 H0), Hw. cbn [write_rc].
  change (negb (OK =? OK)) with false. cbv iota.
  rewrite (relayChGet_Mock _ b1) by exact H1.
  rewrite advance_advance. reflexivity.
Qed.

(** [j] passes whose readbacks all differ from the intended state. *)
Lemma channelLoop_mismatches (j : nat) :
  forall (fuel : nat) (retry stateR : Z) (m : Mock),
    Z.of_nat j <= retry -> stateR <> state ->
    (forall n, wr m n = true) -> (forall n, rd m n <> None) ->
    (forall i b, (i < j)%nat ->
                 rd m (2 * i + 1 + nrd m) = Some b -> chState b pin <> state) ->
    exists stateR' ws,
      stateR' <> state /\ length ws = j /\
      channelLoop (j + fuel) dev pin state retry stateR m
      = channelLoop fuel dev pin state (retry - Z.of_nat j) stateR'
          (advance m (2 * j) ws).
Proof.
  induction j as [| j IH]; intros fuel retry stateR m Hr Hs Hw Hrd Hmis.
  - exists stateR, []. repeat split; [assumption |].
    unfold advance. rewrite app_nil_r, Z.sub_0_r. now destruct m.
  - destruct (rd m (nrd m)) as [b0 |] eqn:E0; [| now apply Hrd in E0].
    destruct (rd m (S (nrd m))) as [b1 |] eqn:E1; [| now apply Hrd in E1].
    assert (Hb1 : chState b1 pin <> state).
    { apply (Hmis 0%nat b1); [lia | exact E1]. }
    cbn [Nat.add].
    rewrite (channelLoop_step _ retry stateR b0 b1 m)
      by (try assumption; try apply Hw; lia).
    set (m1 := advance m 2 _).
    destruct (IH fuel (retry - 1) (chState b1 pin) m1)
      as (stateR' & ws & Hs' & Hlen & Heq).
    + lia.
    + exact Hb1.
    + exact Hw.
    + exact Hrd.
    + intros i b Hi Hb. apply (Hmis (S i) b); [lia |].
      cbn [m1 advance nrd rd] in Hb.
      replace (2 * S i + 1 + nrd m)%nat with (2 * i + 1 + (2 + nrd m))%nat
        by lia.
      exact Hb.
    + exists stateR', ((RELAY8_OUTPORT_REG_ADD, setByte state b0 pin) :: ws).
      split; [exact Hs' |]. split; [cbn; now rewrite Hlen |].
      rewrite Heq. unfold m1. rewrite advance_advance.
      f_equal; [lia |]. f_equal. lia.
Qed.

End ChannelAttempts.

Lemma channelLoop_retry_0 (fuel : nat) (dev pin state stateR : Z) (m : Mock) :
  channelLoop fuel dev pin state 0 stateR m = (Done 0, m).
Proof. destruct fuel; reflexivity. Qed.

Lemma channelLoop_matched (fuel : nat) (dev pin state retry : Z) (m : Mock) :
  channelLoop fuel dev pin state retry state m = (Done retry, m).
Proof.
  destruct fuel; cbn [channelLoop]; rewrite Z.eqb_refl;
    now rewrite andb_false_r.
Qed.

(** C4: when every write and every read succeeds and no readback shows the
    intended state, the single-channel write-verify leaves through the
    exhaustion check (not through the write-failure exit) after exactly
    [RETRY_TIMES] writes, each followed by its readback. *)
Theorem verifyChannel_never_matching
  (RETRY_TIMES : Z) (fuel : nat) (dev pin state : Z) (m : Mock) :
  0 <= RETRY_TIMES -> 1 <= pin <= 4 -> state = ON \/ state = OFF ->
  (Z.to_nat RETRY_TIMES <= fuel)%nat ->
  (forall n, wr m n = true) -> (forall n, rd m n <> None) ->
  (forall i b, rd m (2 * i + 1 + nrd m) = Some b -> chState b pin <> state) ->
  let r := verifyChannel RETRY_TIMES fuel dev pin state m in
  fst r = Exit1 VerifyExhausted
  /\ length (wlog (snd r)) = (length (wlog m) + Z.to_nat RETRY_TIMES)%nat
  /\ nrd (snd r) = (2 * Z.to_nat RETRY_TIMES + nrd m)%nat.
Proof.
  intros HR Hpin Hst Hfuel Hw Hrd Hmis r.
  destruct (channelLoop_mismatches dev pin state Hpin Hst
              (Z.to_nat RETRY_TIMES) (fuel - Z.to_nat RETRY_TIMES)
              RETRY_TIMES STATE_COUNT m)
    as (stateR' & ws & _ & Hlen & Heq).
  - lia.
  - destruct Hst as [-> | ->]; discriminate.
  - exact Hw.
  - exact Hrd.
  - intros i b _. apply Hmis.
  - replace (Z.to_nat RETRY_TIMES + (fuel - Z.to_nat RETRY_TIMES))%nat
      with fuel in Heq by lia.
    replace (RETRY_TIMES - Z.of_nat (Z.to_nat RETRY_TIMES)) with 0 in Heq
      by lia.
    rewrite channelLoop_retry_0 in Heq.
    unfold r, verifyChannel. rewrite Heq. cbn.
    rewrite length_app, Hlen. auto.
Qed.

Lemma verifyChannel_never_matching_witness :
  let r := verifyChannel 10 10 3 1 ON (healthy (fun _ => 0x0f)) in
  fst r = Exit1 VerifyExhausted
  /\ length (wlog (snd r)) = 10%nat
  /\ nrd (snd r) = 20%nat.
Proof.
  apply (verifyChannel_never_matching 10 10 3 1 ON (healthy (fun _ => 0x0f))).
  - lia.
  - lia.
  - left. reflexivity.
  - apply Nat.leb_le. reflexivity.
  - intros n. reflexivity.
  - intros n. discriminate.
  - intros i b Hb. injection Hb as <-. discriminate.
Defined.

(** X15: the outcome when the readback first shows the intended state at the
    [k]-th pass: the operation succeeds unless [k] is [RETRY_TIMES]. *)
Lemma verifyChannel_first_match
  (RETRY_TIMES : Z) (fuel k : nat) (dev pin state : Z) (m : Mock) :
  1 <= pin <= 4 -> state = ON \/ state = OFF ->
  (1 <= k <= fuel)%nat -> Z.of_nat k <= RETRY_TIMES ->
  (forall n, wr m n = true) -> (forall n, rd m n <> None) ->
  (forall i b, (i < k - 1)%nat ->
               rd m (2 * i + 1 + nrd m) = Some b -> chState b pin <> state) ->
  (forall b, rd m (2 * (k - 1) + 1 + nrd m) = Some b -> chState b pin = state) ->
  fst (verifyChannel RETRY_TIMES fuel dev pin state m)
  = if Z.of_nat k =? RETRY_TIMES then Exit1 VerifyExhausted else Done tt.
Proof.
  intros Hpin Hst Hk HR Hw Hrd Hmis Hmatch.
  destruct (channelLoop_mismatches dev pin state Hpin Hst
              (k - 1) (S (fuel - k)) RETRY_TIMES STATE_COUNT m)
    as (stateR' & ws & Hs' & Hlen & Heq); try assumption.
  - lia.
  - destruct Hst as [-> | ->]; discriminate.
  - replace (k - 1 + S (fuel - k))%nat with fuel in Heq by lia.
    set (m1 := advance m (2 * (k - 1)) ws) in Heq.
    destruct (rd m1 (nrd m1)) as [b0 |] eqn:E0; [| now apply Hrd in E0].
    destruct (rd m1 (S (nrd m1))) as [b1 |] eqn:E1; [| now apply Hrd in E1].
    rewrite (channelLoop_step dev pin state Hpin Hst _ _ stateR' b0 b1 m1)
      in Heq; try assumption; try lia; try apply Hw.
    assert (Hb1 : chState b1 pin = state).
    { apply Hmatch. cbn [m1 advance nrd rd] in E1.
      rewrite <- E1. f_equal. lia. }
    rewrite Hb1, channelLoop_matched in Heq.
    unfold verifyChannel. rewrite Heq.
    replace (RETRY_TIMES - Z.of_nat (k - 1) - 1)
      with (RETRY_TIMES - Z.of_nat k) by lia.
    destruct (Z.eqb_spec (Z.of_nat k) RETRY_TIMES) as [E | E].
    + replace (RETRY_TIMES - Z.of_nat k =? 0) with true by (symmetry; lia).
      reflexivity.
    + replace (RETRY_TIMES - Z.of_nat k =? 0) with false by (symmetry; lia).
      reflexivity.
Qed.

(** C3, at the last attempt: with [RETRY_TIMES = 10], every transfer
    succeeding and the tenth readback showing the intended state, the
    single-channel write-verify still leaves through the exhaustion check,
    after ten writes; a match at the ninth pass is a success. *)
Theorem verifyChannel_match_on_last_attempt :
  let r := verifyChannel 10 10 3 1 ON (healthy tenth_pass_bytes) in
  chState (tenth_pass_bytes 19) 1 = ON
  /\ fst r = Exit1 VerifyExhausted
  /\ length (wlog (snd r)) = 10%nat
  /\ fst (verifyChannel 10 10 3 1 ON
            (healthy (fun n => tenth_pass_bytes (2 + n)))) = Done tt.
Proof. vm_compute. repeat split. Qed.

(** On any bus the single-channel loop ends within [retry] passes: its
    counter is decremented in the body. *)
Lemma channelLoop_ends {B : Type} `{I2C B} (dev pin state : Z) (fuel : nat) :
  forall (retry stateR : Z) (b : B),
    (Z.to_nat retry <= fuel)%nat ->
    fst (channelLoop fuel dev pin state retry stateR b) <> Fuel.
Proof.
  induction fuel as [| fuel IH]; intros retry stateR b Hfuel;
    cbn [channelLoop].
  - replace (retry >? 0) with false by (symmetry; lia).
    cbn. discriminate.
  - destruct ((retry >? 0) && negb (stateR =? state)) eqn:C;
      [| cbn; discriminate].
    destruct (relayChSet dev (u8 pin) state b) as [rc b1].
    destruct (negb (OK =? rc)); [cbn; discriminate |].
    destruct (relayChGet dev (u8 pin) b1) as [[stateR' |] b2];
      [| cbn; discriminate].
    apply IH. apply andb_prop in C. lia.
Qed.

(** ** The whole-register write-verify on the scripted bus *)

Lemma IOToRelay_range (io : Z) : 0 <= IOToRelay io <= 15.
Proof.
  unfold IOToRelay. change (upto RELAY_CH_NR_MAX) with [0; 1; 2; 3].
  cbn [fold_left].
  repeat match goal with
         | |- context [Z.land io ?k =? 0] => destruct (Z.land io k =? 0)
         end;
    vm_compute; split; discriminate.
Qed.

Lemma relaySet_healthy (dev val : Z) (m : Mock) :
  (forall n, wr m n = true) ->
  relaySet dev val m
  = (OK, advance m 0 [(RELAY8_OUTPORT_REG_ADD, relayToIO (Z.land 255 val))]).
Proof.
  intros Hw. unfold relaySet.
  cbn [i2cMem8Write Mock_I2C fd rd wr nrd wlog]. now rewrite Hw.
Qed.

(** While the bytes read never decode to [val], every pass of the loop
    leads to another one: the loop uses up any amount of fuel. *)
Lemma valueLoop_spins (dev val : Z) (p : positive) (fuel : nat) :
  forall (valR : Z) (m : Mock),
    valR <> val ->
    (forall n, wr m n = true) ->
    (forall n, exists b, rd m n = Some b /\ IOToRelay b <> val) ->
    exists ws,
      length ws = fuel
      /\ valueLoop fuel dev val (Z.pos p) valR m = (Fuel, advance m fuel ws).
Proof.
  induction fuel as [| fuel IH]; intros valR m Hne Hw Hrd;
    cbn [valueLoop]; apply Z.eqb_neq in Hne; rewrite Hne;
    change (Z.pos p >? 0) with true; cbn [negb andb].
  - exists []. split; [reflexivity |].
    unfold advance. rewrite app_nil_r. now destruct m.
  - rewrite (relaySet_healthy dev val m Hw).
    change (negb (OK =? OK)) with false. cbv iota.
    unfold relayGet.
    cbn [i2cMem8Read Mock_I2C advance fd rd wr nrd wlog Nat.add].
    destruct (Hrd (nrd m)) as (b & Hb & Hdec). rewrite Hb.
    destruct (IH (IOToRelay b)
                (mkMock (fd m) (rd m) (wr m) (S (nrd m))
                   (wlog m ++
                    [(RELAY8_OUTPORT_REG_ADD, relayToIO (Z.land 255 val))])))
      as (ws & Hlen & Heq); [exact Hdec | exact Hw | exact Hrd |].
    exists ((RELAY8_OUTPORT_REG_ADD, relayToIO (Z.land 255 val)) :: ws).
    split; [cbn; now rewrite Hlen |].
    rewrite Heq. unfold advance. cbn [fd rd wr nrd wlog].
    rewrite <- app_assoc. cbn [app]. f_equal. f_equal. lia.
Qed.

(** C1, as the code behaves: [write <id> 255] on a bus where every transfer
    succeeds, whatever bytes are read back and whatever positive value
    [RETRY_TIMES] has.  The readback decodes to at most 15, [retry] is never
    decremented, and after any number [fuel] of passes the loop has issued
    [fuel] writes and is still running: it neither returns nor reaches the
    exhaustion exit. *)
Theorem verifyValue_255_never_ends
  (p : positive) (bytes : nat -> Z) (fuel : nat) (dev : Z) :
  let r := verifyValue (Z.pos p) fuel dev 255 (healthy bytes) in
  fst r = Fuel /\ length (wlog (snd r)) = fuel.
Proof.
  destruct (valueLoop_spins dev 255 p fuel (-1) (healthy bytes))
    as (ws & Hlen & Heq).
  - discriminate.
  - intros n. reflexivity.
  - intros n. exists (bytes n). split; [reflexivity |].
    pose proof (IOToRelay_range (bytes n)). lia.
  - cbv zeta. unfold verifyValue. rewrite Heq. cbn. auto.
Qed.

(** The same loop with a value the readback can decode to: it ends at the
    first match with [retry] untouched, so the exhaustion exit is never
    taken for a positive [RETRY_TIMES]. *)
Lemma verifyValue_match_first_pass :
  verifyValue 10 1 3 5 (healthy (fun _ => 0xa0))
  = (Done tt, advance (healthy (fun _ => 0xa0)) 1
                [(RELAY8_OUTPORT_REG_ADD, 0xa0)]).
Proof. reflexivity. Qed.

(** ** The self-test and the all-off write *)

Lemma relaySet_0_last (dev : Z) (m : Mock) :
  all_off_last (snd (relaySet dev 0 m)).
Proof.
  unfold all_off_last, relaySet.
  cbn [i2cMem8Write Mock_I2C snd wlog]. apply last_last.
Qed.

(** C2, as amended: whenever the self-test ends by reporting PASS or FAIL,
    the last operation it issued on the bus is the whole-register write of
    0 that switches all relays off. *)
Theorem doTest_reported_all_off
  (base RETRY_TIMES : Z) (checkThreadResult : nat -> Z) (YES : Z)
  (fuel : nat) (stack : Z) (file : bool) (t : TestState Mock)
  (pass toFile : bool) :
  fst (doTest base RETRY_TIMES checkThreadResult YES fuel stack file t)
  = Reported pass toFile ->
  all_off_last
    (bus (snd (doTest base RETRY_TIMES checkThreadResult YES fuel stack
                 file t))).
Proof.
  unfold doTest.
  destruct (doBoardInit base stack (bus t)) as [dev b1].
  destruct (dev <=? 0); [discriminate |].
  destruct (testLoop RETRY_TIMES checkThreadResult fuel dev 0
              (mkTestState b1 (polls t))) as [[relayResult | why |] t2];
    [| discriminate | discriminate].
  intros _.
  pose proof (relaySet_0_last dev (bus t2)) as L.
  destruct (relaySet dev 0 (bus t2)) as [rc b3]. exact L.
Qed.

(** The operator confirms at the first poll. *)
Lemma doTest_reported_all_off_witness :
  let r := doTest 0x38 10 (fun _ => 1) 1 5 0 false
             (mkTestState initialised_mock 0) in
  fst r = Reported true false /\ all_off_last (bus (snd r)).
Proof.
  split; [reflexivity |].
  apply (doTest_reported_all_off 0x38 10 (fun _ => 1) 1 5 0 false
           (mkTestState initialised_mock 0) true false).
  reflexivity.
Defined.

(** C2, as stated, fails: relay 1 is switched on, its readback fails, and
    the self-test leaves through [exit(1)]; the only write issued is the one
    that switched relay 1 on. *)
Lemma doTest_abort_skips_all_off :
  let r := doTest 0x38 10 (fun _ => 0) 1 50 0 false
             (mkTestState readback_fails 0) in
  fst r = Aborted
  /\ wlog (bus (snd r)) = [(RELAY8_OUTPORT_REG_ADD, 0x8f)]
  /\ ~ all_off_last (bus (snd r)).
Proof.
  cbv zeta. split; [reflexivity |]. split; [reflexivity |].
  unfold all_off_last. vm_compute. discriminate.
Qed.

(** On a board that answers, a reported self-test leaves all relays off. *)
Lemma doTest_reported_Expander
  (base RETRY_TIMES : Z) (checkThreadResult : nat -> Z) (YES : Z)
  (fuel : nat) (stack : Z) (file : bool) (t : TestState Expander)
  (pass toFile : bool) :
  fst (doTest base RETRY_TIMES checkThreadResult YES fuel stack file t)
  = Reported pass toFile ->
  out_reg
    (bus (snd (doTest base RETRY_TIMES checkThreadResult YES fuel stack
                 file t))) = 0.
Proof.
  unfold doTest.
  destruct (doBoardInit base stack (bus t)) as [dev b1].
  destruct (dev <=? 0); [discriminate |].
  destruct (testLoop RETRY_TIMES checkThreadResult fuel dev 0
              (mkTestState b1 (polls t))) as [[relayResult | why |] t2];
    [| discriminate | discriminate].
  intros _. reflexivity.
Qed.

(** * Further properties *)

Lemma forall_upto2_spec (n k : Z) (p : Z -> Z -> bool) :
  forall_upto n (fun x => forall_upto k (p x)) = true ->
  forall x y, 0 <= x < n -> 0 <= y < k -> p x y = true.
Proof.
  intros T x y Hx Hy.
  apply (forall_upto_spec k (p x)); [| exact Hy].
  apply (forall_upto_spec n (fun x => forall_upto k (p x)) T x Hx).
Qed.

(** ** The bit remapper on bytes *)

Lemma relayToIO_table :
  forall_upto 256 (fun v => forall_upto 4 (fun i =>
    Bool.eqb (Z.testbit (relayToIO v) (idx relayChRemap i)) (Z.testbit v i)
    && (Z.land (relayToIO v) 0x0f =? 0)
    && (relayToIO v =? relayToIO (v mod 16)))) = true.
Proof. vm_compute. reflexivity. Qed.

(** X1: for a value [v] in [0,255], [relayToIO] puts the state of relay [c]
    at physical bit [relayChRemap[c-1]], leaves the input nibble zero and
    ignores the upper four bits of [v]. *)
Theorem relayToIO_layout (v c : Z) :
  0 <= v <= 255 -> 1 <= c <= 4 ->
  Z.testbit (relayToIO v) (idx relayChRemap (c - 1)) = Z.testbit v (c - 1)
  /\ Z.land (relayToIO v) 0x0f = 0
  /\ relayToIO v = relayToIO (v mod 16).
Proof.
  intros Hv Hc.
  assert (T := forall_upto2_spec _ _ _ relayToIO_table v (c - 1)
                 ltac:(lia) ltac:(lia)).
  cbv beta in T.
  apply andb_prop in T. destruct T as [T T3].
  apply andb_prop in T. destruct T as [T1 T2].
  apply Bool.eqb_prop in T1. apply Z.eqb_eq in T2, T3. auto.
Qed.

Lemma relayToIO_layout_witness :
  Z.testbit (relayToIO 0xf5) (idx relayChRemap (3 - 1)) = Z.testbit 0xf5 (3 - 1)
  /\ Z.land (relayToIO 0xf5) 0x0f = 0
  /\ relayToIO 0xf5 = relayToIO (0xf5 mod 16).
Proof. apply relayToIO_layout; lia. Defined.

(** X2: decoding a register byte to the relay mask and encoding it again
    gives the output nibble of the byte. *)
Theorem relayToIO_IOToRelay (b : Z) :
  0 <= b <= 255 -> relayToIO (IOToRelay b) = Z.land b 0xf0.
Proof.
  intros Hb.
  assert (T : forall_upto 256 (fun x =>
                relayToIO (IOToRelay x) =? Z.land x 0xf0) = true)
    by (vm_compute; reflexivity).
  apply Z.eqb_eq. apply (forall_upto_spec _ _ T). lia.
Qed.

Lemma relayToIO_IOToRelay_witness :
  relayToIO (IOToRelay 0xa7) = Z.land 0xa7 0xf0.
Proof. apply relayToIO_IOToRelay. lia. Defined.

(** X3: the per-channel relay read and the mask read agree: for a register
    byte [b] and a channel [c] in [1,4], [relayChGet] stores [ON] exactly
    when bit [c-1] of the mask decoded by [relayGet] is set. *)
Theorem chState_IOToRelay (b c : Z) :
  0 <= b <= 255 -> 1 <= c <= 4 ->
  chState b c = if Z.testbit (IOToRelay b) (c - 1) then ON else OFF.
Proof.
  intros Hb Hc.
  assert (T : forall_upto 256 (fun x => forall_upto 4 (fun i =>
                chState x (i + 1)
                =? if Z.testbit (IOToRelay x) i then ON else OFF)) = true)
    by (vm_compute; reflexivity).
  assert (U := forall_upto2_spec _ _ _ T b (c - 1) ltac:(lia) ltac:(lia)).
  cbv beta in U. replace (c - 1 + 1) with c in U by lia.
  now apply Z.eqb_eq.
Qed.

Lemma chState_IOToRelay_witness :
  chState 0x4f 2 = if Z.testbit (IOToRelay 0x4f) (2 - 1) then ON else OFF.
Proof. apply chState_IOToRelay; lia. Defined.

(** X4: the per-channel input read does not follow the input mask.  For a
    register byte [b], [inChGet] stores [ON] for channel 1 whatever the
    byte; for channel 2 exactly when relay 4 reads off; for channels 3 and 4
    exactly when the mask of [inGet] shows input 2, respectively input 3,
    asserted. *)
Theorem inChState_shifted (b : Z) :
  0 <= b <= 255 ->
  inChState b 1 = ON
  /\ inChState b 2 = (if Z.testbit (IOToRelay b) 3 then OFF else ON)
  /\ inChState b 3 = (if Z.testbit (IOToIn b) 1 then ON else OFF)
  /\ inChState b 4 = (if Z.testbit (IOToIn b) 2 then ON else OFF).
Proof.
  intros Hb.
  assert (T : forall_upto 256 (fun x =>
     (inChState x 1 =? ON)
     && (inChState x 2 =? if Z.testbit (IOToRelay x) 3 then OFF else ON)
     && (inChState x 3 =? if Z.testbit (IOToIn x) 1 then ON else OFF)
     && (inChState x 4 =? if Z.testbit (IOToIn x) 2 then ON else OFF)) = true)
    by (vm_compute; reflexivity).
  assert (U := forall_upto_spec _ _ T b ltac:(lia)). cbv beta in U.
  apply andb_prop in U. destruct U as [U U4].
  apply andb_prop in U. destruct U as [U U3].
  apply andb_prop in U. destruct U as [U1 U2].
  apply Z.eqb_eq in U1, U2, U3, U4. auto.
Qed.

Lemma inChState_shifted_witness :
  inChState 0xf7 1 = ON
  /\ inChState 0xf7 2 = (if Z.testbit (IOToRelay 0xf7) 3 then OFF else ON)
  /\ inChState 0xf7 3 = (if Z.testbit (IOToIn 0xf7) 1 then ON else OFF)
  /\ inChState 0xf7 4 = (if Z.testbit (IOToIn 0xf7) 2 then ON else OFF).
Proof. apply inChState_shifted. lia. Defined.

(** ** Register access on a board that answers *)

Lemma inport_high (e : Expander) :
  Z.land (inport e) 240 = Z.land (out_reg e) 240.
Proof.
  unfold inport. rewrite Z.land_lor_distr_l, <- !Z.land_assoc.
  change (Z.land 240 240) with 240. change (Z.land 15 240) with 0.
  now rewrite Z.land_0_r, Z.lor_0_r.
Qed.

Lemma IOToRelay_high (x : Z) :
  0 <= x < 256 -> IOToRelay x = IOToRelay (Z.land x 240).
Proof.
  intros Hx.
  assert (T : forall_upto 256 (fun b =>
                IOToRelay b =? IOToRelay (Z.land b 240)) = true)
    by (vm_compute; reflexivity).
  apply Z.eqb_eq. apply (forall_upto_spec _ _ T). lia.
Qed.

Lemma IOToIn_low (x : Z) :
  0 <= x < 256 -> IOToIn x = IOToIn (Z.land x 15).
Proof.
  intros Hx.
  assert (T : forall_upto 256 (fun b =>
                IOToIn b =? IOToIn (Z.land b 15)) = true)
    by (vm_compute; reflexivity).
  apply Z.eqb_eq. apply (forall_upto_spec _ _ T). lia.
Qed.

Lemma inGet_pins (dev : Z) (e : Expander) :
  inGet dev e = (Some (IOToIn (Z.land (in_pins e) 15)), e).
Proof.
  unfold inGet. cbn [i2cMem8Read Expander_I2C].
  now rewrite (IOToIn_low _ (inport_byte e)), <- inport_low.
Qed.

Lemma relayGet_out (dev : Z) (e : Expander) :
  relayGet dev e = (Some (IOToRelay (Z.land (out_reg e) 240)), e).
Proof.
  unfold relayGet. cbn [i2cMem8Read Expander_I2C].
  now rewrite (IOToRelay_high _ (inport_byte e)), inport_high.
Qed.

Lemma relayChSet_Expander (dev c state : Z) (e : Expander) :
  1 <= c <= 4 -> state = ON \/ state = OFF ->
  relayChSet dev c state e
  = (OK, mkExpander (cfg_reg e) (u8 (setByte state (inport e) c))
           (in_pins e)).
Proof.
  intros Hc Hst. unfold relayChSet, setByte.
  rewrite (bad_channel_false c Hc).
  destruct Hst as [-> | ->]; reflexivity.
Qed.

(** X5: on a board that answers, switching a relay or writing the whole
    relay register does not change the input mask read by [inGet]. *)
Theorem relay_writes_keep_inputs (dev c state val : Z) (e : Expander) :
  1 <= c <= 4 -> state = ON \/ state = OFF ->
  fst (inGet dev (snd (relayChSet dev c state e))) = fst (inGet dev e)
  /\ fst (inGet dev (snd (relaySet dev val e))) = fst (inGet dev e).
Proof.
  intros Hc Hst. rewrite (relayChSet_Expander dev c state e Hc Hst).
  unfold relaySet. cbn [i2cMem8Write Expander_I2C snd].
  rewrite !inGet_pins. cbn [fst in_pins]. split; reflexivity.
Qed.

Lemma relay_writes_keep_inputs_witness :
  fst (inGet 3 (snd (relayChSet 3 2 ON (mkExpander 0x0f 0x10 0x05))))
  = fst (inGet 3 (mkExpander 0x0f 0x10 0x05))
  /\ fst (inGet 3 (snd (relaySet 3 9 (mkExpander 0x0f 0x10 0x05))))
     = fst (inGet 3 (mkExpander 0x0f 0x10 0x05)).
Proof.
  apply relay_writes_keep_inputs; [lia | left; reflexivity].
Defined.

Lemma readback_off_table :
  forall_upto 256 (fun b => forall_upto 4 (fun i =>
    let c := i + 1 in
    (chState (readback_off b c) c =? OFF)
    && (IOToRelay (readback_off b c)
        =? Z.land (IOToRelay b) (Z.lnot (Z.shiftl 1 (c - 1))))
    && forall_upto 4 (fun j =>
         let c' := j + 1 in
         (c' =? c) || (chState (readback_off b c) c' =? chState b c')))) = true.
Proof. vm_compute. reflexivity. Qed.

Lemma inport_after_OFF (c : Z) (e : Expander) :
  inport (mkExpander (cfg_reg e) (u8 (setByte OFF (inport e) c)) (in_pins e))
  = readback_off (inport e) c.
Proof.
  unfold inport at 1, readback_off, setByte. cbn [out_reg in_pins].
  change (OFF =? OFF) with true. cbv iota. now rewrite inport_low.
Qed.

(** X6: on a board that answers, switching a channel [c] in [1,4] off
    touches that channel only: [relayChSet] succeeds, [relayChGet] then
    reports [OFF] for [c] and the former state for every other channel, and
    the mask of [relayGet] is the former mask with bit [c-1] cleared. *)
Theorem relayChSet_OFF_isolated (dev c : Z) (e : Expander) :
  1 <= c <= 4 ->
  let e1 := snd (relayChSet dev c OFF e) in
  fst (relayChSet dev c OFF e) = OK
  /\ fst (relayChGet dev c e1) = Some OFF
  /\ (forall c', 1 <= c' <= 4 -> c' <> c ->
        fst (relayChGet dev c' e1) = fst (relayChGet dev c' e))
  /\ (forall v, fst (relayGet dev e) = Some v ->
        fst (relayGet dev e1)
        = Some (Z.land v (Z.lnot (Z.shiftl 1 (c - 1))))).
Proof.
  intros Hc.
  rewrite (relayChSet_Expander dev c OFF e Hc (or_intror eq_refl)).
  cbv zeta. cbn [fst snd].
  set (e1 := mkExpander _ _ _).
  assert (R : inport e1 = readback_off (inport e) c)
    by apply inport_after_OFF.
  assert (U := forall_upto2_spec _ _ _ readback_off_table (inport e) (c - 1)
                 (inport_byte e) ltac:(lia)).
  cbv beta zeta in U. replace (c - 1 + 1) with c in U by lia.
  apply andb_prop in U. destruct U as [U U3].
  apply andb_prop in U. destruct U as [U1 U2].
  apply Z.eqb_eq in U1, U2.
  unfold relayChGet, relayGet. cbn [i2cMem8Read Expander_I2C fst].
  rewrite R. repeat split.
  - rewrite (bad_channel_false c Hc). cbn [fst]. now rewrite U1.
  - intros c' Hc' Hne. rewrite (bad_channel_false c' Hc'). cbn [fst].
    assert (V := forall_upto_spec _ _ U3 (c' - 1) ltac:(lia)).
    cbv beta zeta in V. replace (c' - 1 + 1) with c' in V by lia.
    apply orb_prop in V. destruct V as [V | V].
    + apply Z.eqb_eq in V. contradiction.
    + apply Z.eqb_eq in V. now rewrite V.
  - intros v Hv. injection Hv as <-. now rewrite U2.
Qed.

(** With relays 2 and 4 on ([0b1010]), switching relay 2 off leaves
    [0b1000]. *)
Lemma relayChSet_OFF_isolated_witness :
  let e0 := mkExpander 0x0f 0x50 0x0f in
  let e1 := snd (relayChSet 3 2 OFF e0) in
  fst (relayGet 3 e1) = Some 8 /\ fst (relayChGet 3 2 e1) = Some OFF.
Proof.
  intros e0 e1.
  destruct (relayChSet_OFF_isolated 3 2 e0 ltac:(lia)) as (_ & G & _ & A).
  split; [exact (A 10 eq_refl) | exact G].
Defined.

Lemma relaySet_decodes (val : Z) :
  IOToRelay (Z.land (u8 (relayToIO (Z.land 255 val))) 240) = Z.land val 15.
Proof.
  assert (T : forall_upto 256 (fun v =>
                IOToRelay (Z.land (u8 (relayToIO v)) 240) =? Z.land v 15)
              = true)
    by (vm_compute; reflexivity).
  assert (Hv : 0 <= Z.land 255 val < 256).
  { rewrite Z.land_comm. change 255 with (Z.ones 8).
    rewrite Z.land_ones by lia. apply Z.mod_pos_bound. lia. }
  assert (U := forall_upto_spec _ _ T _ Hv). cbv beta in U.
  apply Z.eqb_eq in U. rewrite U.
  rewrite (Z.land_comm 255 val), <- Z.land_assoc. reflexivity.
Qed.

Lemma relaySet_readback (dev val : Z) (e : Expander) :
  relayGet dev (snd (relaySet dev val e))
  = (Some (Z.land val 15), snd (relaySet dev val e)).
Proof.
  rewrite relayGet_out. f_equal. f_equal.
  unfold relaySet. cbn [i2cMem8Write Expander_I2C snd out_reg].
  apply relaySet_decodes.
Qed.

(** X7: on a board that answers, [relaySet] followed by [relayGet] reads
    back the low four bits of the value written, whatever the value. *)
Theorem relayGet_relaySet (dev val : Z) (e : Expander) :
  fst (relayGet dev (snd (relaySet dev val e))) = Some (Z.land val 15).
Proof.
  unfold relaySet. cbn [i2cMem8Write Expander_I2C snd].
  rewrite relayGet_out. cbn [fst out_reg]. f_equal.
  apply relaySet_decodes.
Qed.

(** ** Board initialisation *)

Lemma doBoardInit_Expander (base stack : Z) (e : Expander) :
  0 <= stack <= 7 -> doBoardInit base stack e = (3, init_board e).
Proof.
  intros Hs. unfold doBoardInit, init_board.
  replace ((stack <? 0) || (stack >? 7)) with false
    by (symmetry; apply orb_false_iff; lia).
  cbn [i2cSetup i2cMem8Read i2cMem8Write Expander_I2C].
  change (3 =? -1) with false. cbv iota.
  destruct (cfg_reg e =? 15); reflexivity.
Qed.

(** X8: on a board that answers, [doBoardInit] with a stack level in [0,7]
    leaves the direction register at the sentinel [0x0f]; a board that was
    already initialised keeps all its registers, any other board has its
    output register cleared; the input pins are untouched and a second call
    changes nothing more. *)
Theorem doBoardInit_idempotent (base stack : Z) (e : Expander) :
  0 <= stack <= 7 ->
  let r := doBoardInit base stack e in
  cfg_reg (snd r) = 0x0f
  /\ (cfg_reg e = 0x0f -> snd r = e)
  /\ (cfg_reg e <> 0x0f -> out_reg (snd r) = 0)
  /\ in_pins (snd r) = in_pins e
  /\ doBoardInit base stack (snd r) = r.
Proof.
  intros Hs r. unfold r.
  rewrite !(doBoardInit_Expander base stack) by exact Hs.
  cbn [snd]. unfold init_board.
  destruct (Z.eqb_spec (cfg_reg e) 15) as [E | E].
  - rewrite <- Z.eqb_eq in E. rewrite E. apply Z.eqb_eq in E. tauto.
  - cbn [cfg_reg out_reg in_pins]. change (15 =? 15) with true. cbv iota.
    tauto.
Qed.

Lemma doBoardInit_idempotent_witness :
  let r := doBoardInit 0x38 5 (mkExpander 0xff 0xa0 0x03) in
  cfg_reg (snd r) = 0x0f
  /\ (cfg_reg (mkExpander 0xff 0xa0 0x03) = 0x0f
      -> snd r = mkExpander 0xff 0xa0 0x03)
  /\ (cfg_reg (mkExpander 0xff 0xa0 0x03) <> 0x0f -> out_reg (snd r) = 0)
  /\ in_pins (snd r) = in_pins (mkExpander 0xff 0xa0 0x03)
  /\ doBoardInit 0x38 5 (snd r) = r.
Proof. apply doBoardInit_idempotent. lia. Defined.

(** ** Error paths of the register access and of the board session *)

Lemma bad_channel_true (c : Z) : c < 1 \/ c > 4 -> bad_channel c = true.
Proof.
  intros Hc. unfold bad_channel, CHANNEL_NR_MIN, RELAY_CH_NR_MAX.
  apply orb_true_iff. lia.
Qed.



(** X10: when the register read of [relayChSet] fails, it returns [FAIL]
    and no write is issued, whatever the state asked for. *)
Theorem relayChSet_read_fails (dev c state : Z) (m : Mock) :
  1 <= c <= 4 -> rd m (nrd m) = None ->
  relayChSet dev c state m = (FAIL, advance m 1 []).
Proof.
  intros Hc Hrd. unfold relayChSet, advance.
  rewrite (bad_channel_false c Hc).
  cbn [i2cMem8Read Mock_I2C fd rd wr nrd wlog Nat.add].
  now rewrite Hrd, app_nil_r.
Qed.

(** A bus on which no read succeeds. *)
Lemma relayChSet_read_fails_witness :
  relayChSet 3 1 ON (mkMock (fun _ => 3) (fun _ => None) (fun _ => true) 0 [])
  = (FAIL, mkMock (fun _ => 3) (fun _ => None) (fun _ => true) 1 []).
Proof.
  apply (relayChSet_read_fails 3 1 ON
           (mkMock (fun _ => 3) (fun _ => None) (fun _ => true) 0 []));
    [lia | reflexivity].
Defined.

(** X11: [doBoardInit] returns [ERROR] without any register transfer when
    the stack level is outside [0,7] or when the bus cannot be opened. *)
Theorem doBoardInit_no_session (base stack : Z) (m : Mock) :
  (stack < 0 \/ stack > 7) \/ fd m (stack_add base stack) = -1 ->
  doBoardInit base stack m = (ERROR, m).
Proof.
  intros Hs. unfold doBoardInit.
  destruct ((stack <? 0) || (stack >? 7)) eqn:E; [reflexivity |].
  apply orb_false_iff in E. destruct Hs as [Hs | Hs]; [lia |].
  cbn [i2cSetup Mock_I2C]. rewrite Hs. reflexivity.
Qed.

Lemma doBoardInit_no_session_witness :
  doBoardInit 0x38 8 initialised_mock = (ERROR, initialised_mock).
Proof. apply doBoardInit_no_session. left. right. lia. Defined.

(** X12: when the board does not answer the read of its direction register,
    [doBoardInit] returns [ERROR] after that one read and has issued no
    write. *)
Theorem doBoardInit_unreadable (base stack : Z) (m : Mock) :
  0 <= stack <= 7 ->
  fd m (stack_add base stack) <> -1 ->
  rd m (nrd m) = None ->
  doBoardInit base stack m = (ERROR, advance m 1 []).
Proof.
  intros Hs Hfd Hrd. unfold doBoardInit, advance.
  replace ((stack <? 0) || (stack >? 7)) with false
    by (symmetry; apply orb_false_iff; lia).
  cbn [i2cSetup i2cMem8Read Mock_I2C fd rd wr nrd wlog Nat.add].
  apply Z.eqb_neq in Hfd. now rewrite Hfd, Hrd, app_nil_r.
Qed.

Lemma doBoardInit_unreadable_witness :
  doBoardInit 0x38 0 (mkMock (fun _ => 3) (fun _ => None) (fun _ => true) 0 [])
  = (ERROR, mkMock (fun _ => 3) (fun _ => None) (fun _ => true) 1 []).
Proof.
  apply (doBoardInit_unreadable 0x38 0
           (mkMock (fun _ => 3) (fun _ => None) (fun _ => true) 0 [])).
  - lia.
  - simpl. lia.
  - reflexivity.
Defined.

(** X13: when the direction register reads as anything but the sentinel
    [0x0f] and the writes succeed, [doBoardInit] issues exactly two writes,
    the sentinel to the direction register and then 0 to the output
    register, and returns the handle. *)
Theorem doBoardInit_uninitialised (base stack cfg : Z) (m : Mock) :
  0 <= stack <= 7 ->
  fd m (stack_add base stack) <> -1 ->
  rd m (nrd m) = Some cfg -> cfg <> 0x0f ->
  wr m (length (wlog m)) = true -> wr m (S (length (wlog m))) = true ->
  doBoardInit base stack m
  = (fd m (stack_add base stack),
     advance m 1 [(RELAY8_CFG_REG_ADD, 0x0f); (RELAY8_OUTPORT_REG_ADD, 0)]).
Proof.
  intros Hs Hfd Hrd Hcfg Hw1 Hw2. unfold doBoardInit, advance.
  replace ((stack <? 0) || (stack >? 7)) with false
    by (symmetry; apply orb_false_iff; lia).
  cbn [i2cSetup i2cMem8Read i2cMem8Write Mock_I2C fd rd wr nrd wlog Nat.add].
  apply Z.eqb_neq in Hfd, Hcfg. rewrite Hfd, Hrd, Hcfg, Hw1.
  cbn [negb write_rc]. change (0 >? OK) with false. cbv iota.
  rewrite length_app. cbn [length]. rewrite Nat.add_1_r, Hw2.
  cbn [write_rc]. change (0 >? OK) with false. cbv iota.
  now rewrite <- app_assoc.
Qed.

(** A board fresh from power-up: every register reads [0xff]. *)
Lemma doBoardInit_uninitialised_witness :
  doBoardInit 0x38 3 (healthy (fun _ => 0xff))
  = (3, advance (healthy (fun _ => 0xff)) 1
          [(RELAY8_CFG_REG_ADD, 0x0f); (RELAY8_OUTPORT_REG_ADD, 0)]).
Proof.
  apply (doBoardInit_uninitialised 0x38 3 0xff (healthy (fun _ => 0xff))).
  - lia.
  - simpl. lia.
  - reflexivity.
  - lia.
  - reflexivity.
  - reflexivity.
Defined.

(** ** The write-verify loops: budget and failure exits *)

Lemma relayChSet_wlog (dev c state : Z) (m : Mock) :
  (length (wlog (snd (relayChSet dev c state m))) <= S (length (wlog m)))%nat.
Proof.
  unfold relayChSet. destruct (bad_channel c); [cbn; lia |].
  cbn [i2cMem8Read i2cMem8Write Mock_I2C fd rd wr nrd wlog].
  destruct (rd m (nrd m)); [| cbn; lia].
  destruct (state =? OFF); [cbn; rewrite length_app; cbn; lia |].
  destruct (state =? ON); cbn; [rewrite length_app; cbn |]; lia.
Qed.

Lemma relayChGet_wlog (dev c : Z) (m : Mock) :
  wlog (snd (relayChGet dev c m)) = wlog m.
Proof.
  unfold relayChGet. destruct (bad_channel c); [reflexivity |].
  cbn [i2cMem8Read Mock_I2C]. destruct (rd m (nrd m)); reflexivity.
Qed.

Lemma channelLoop_budget (dev pin state : Z) (fuel : nat) :
  forall (retry stateR : Z) (m : Mock),
    (Z.to_nat retry <= fuel)%nat ->
    let r := channelLoop fuel dev pin state retry stateR m in
    fst r <> Fuel
    /\ (length (wlog (snd r)) <= length (wlog m) + Z.to_nat retry)%nat.
Proof.
  induction fuel as [| fuel IH]; intros retry stateR m Hfuel;
    cbn [channelLoop].
  - replace (retry >? 0) with false by (symmetry; lia).
    cbn. split; [discriminate | lia].
  - destruct ((retry >? 0) && negb (stateR =? state)) eqn:C;
      [| cbn; split; [discriminate | lia]].
    apply andb_prop in C. destruct C as [C _].
    pose proof (relayChSet_wlog dev (u8 pin) state m) as L1.
    destruct (relayChSet dev (u8 pin) state m) as [rc m1]. cbn [snd] in L1.
    destruct (negb (OK =? rc)); [cbn; split; [discriminate | lia] |].
    pose proof (relayChGet_wlog dev (u8 pin) m1) as L2.
    destruct (relayChGet dev (u8 pin) m1) as [[stateR' |] m2];
      cbn [snd] in L2.
    + destruct (IH (retry - 1) stateR' m2 ltac:(lia)) as [I1 I2].
      split; [exact I1 |]. rewrite L2 in I2. lia.
    + cbn. rewrite L2. split; [discriminate | lia].
Qed.

(** X14: on any scripted bus, failures and noise included, the
    single-channel write-verify given fuel for [RETRY_TIMES] passes ends,
    and it has issued at most [RETRY_TIMES] writes. *)
Theorem verifyChannel_within_budget
  (RETRY_TIMES : Z) (fuel : nat) (dev pin state : Z) (m : Mock) :
  (Z.to_nat RETRY_TIMES <= fuel)%nat ->
  let r := verifyChannel RETRY_TIMES fuel dev pin state m in
  fst r <> Fuel
  /\ (length (wlog (snd r)) <= length (wlog m) + Z.to_nat RETRY_TIMES)%nat.
Proof.
  intros Hfuel.
  destruct (channelLoop_budget dev pin state fuel RETRY_TIMES STATE_COUNT m
              Hfuel) as [I1 I2].
  cbv zeta. unfold verifyChannel.
  destruct (channelLoop fuel dev pin state RETRY_TIMES STATE_COUNT m)
    as [[retry | why |] m1]; cbn [fst snd] in *.
  - destruct (retry =? 0); cbn; split; [discriminate | lia | discriminate | lia].
  - split; [discriminate | lia].
  - contradiction.
Qed.

Lemma verifyChannel_within_budget_witness :
  let r := verifyChannel 10 10 3 1 ON readback_fails in
  fst r <> Fuel /\ (length (wlog (snd r)) <= 0 + 10)%nat.
Proof.
  apply (verifyChannel_within_budget 10 10 3 1 ON readback_fails).
  apply Nat.leb_le. reflexivity.
Defined.

Lemma verifyChannel_first_match_witness :
  fst (verifyChannel 10 10 3 1 ON
         (healthy (fun n => tenth_pass_bytes (14 + n))))
  = if Z.of_nat 3 =? 10 then Exit1 VerifyExhausted else Done tt.
Proof.
  apply (verifyChannel_first_match 10 10 3 3 1 ON
           (healthy (fun n => tenth_pass_bytes (14 + n)))).
  - lia.
  - left. reflexivity.
  - split; apply Nat.leb_le; reflexivity.
  - lia.
  - intros n. reflexivity.
  - intros n. discriminate.
  - intros i b Hi Hb. cbn [healthy rd nrd] in Hb. injection Hb as <-.
    assert (Hi' : (i = 0 \/ i = 1)%nat) by lia.
    destruct Hi' as [-> | ->]; discriminate.
  - intros b Hb. injection Hb as <-. reflexivity.
Defined.

(** X16: a failed write is not retried.  When the first write of a
    write-verify fails, the single-channel path and the whole-register path
    both leave through the write-failure exit with that one write issued. *)
Theorem write_failure_is_immediate
  (RETRY_TIMES : Z) (fuel : nat) (dev pin state val : Z) (m : Mock) :
  0 < RETRY_TIMES -> (1 <= fuel)%nat ->
  1 <= pin <= 4 -> state = ON \/ state = OFF -> 0 <= val <= 255 ->
  rd m (nrd m) <> None -> wr m (length (wlog m)) = false ->
  let rc := verifyChannel RETRY_TIMES fuel dev pin state m in
  let rv := verifyValue RETRY_TIMES fuel dev val m in
  (fst rc = Exit1 WriteFailed
   /\ length (wlog (snd rc)) = S (length (wlog m)))
  /\ (fst rv = Exit1 WriteFailed
      /\ length (wlog (snd rv)) = S (length (wlog m))).
Proof.
  intros HR Hfuel Hpin Hst Hval Hrd Hw.
  destruct fuel as [| fuel]; [lia |]. cbv zeta.
  unfold verifyChannel, verifyValue. cbn [channelLoop valueLoop].
  replace (RETRY_TIMES >? 0) with true by (symmetry; lia).
  replace (STATE_COUNT =? state) with false
    by (destruct Hst as [-> | ->]; reflexivity).
  replace (-1 =? val) with false by (symmetry; lia).
  cbn [negb andb].
  destruct (rd m (nrd m)) as [b0 |] eqn:E0; [| contradiction].
  rewrite (u8_pin pin Hpin), (relayChSet_Mock dev pin state Hpin Hst m b0 E0).
  unfold relaySet. cbn [i2cMem8Write Mock_I2C].
  rewrite Hw. cbn. rewrite !length_app. cbn. rewrite Nat.add_1_r. auto.
Qed.

(** A bus on which reads succeed and every write fails. *)
Lemma write_failure_is_immediate_witness :
  let m := mkMock (fun _ => 3) (fun _ => Some 0x0f) (fun _ => false) 0 [] in
  let rc := verifyChannel 10 10 3 2 ON m in
  let rv := verifyValue 10 10 3 5 m in
  (fst rc = Exit1 WriteFailed /\ length (wlog (snd rc)) = 1%nat)
  /\ (fst rv = Exit1 WriteFailed /\ length (wlog (snd rv)) = 1%nat).
Proof.
  apply (write_failure_is_immediate 10 10 3 2 ON 5
           (mkMock (fun _ => 3) (fun _ => Some 0x0f) (fun _ => false) 0 [])).
  - lia.
  - apply Nat.leb_le. reflexivity.
  - lia.
  - left. reflexivity.
  - lia.
  - discriminate.
  - reflexivity.
Defined.

Lemma valueLoop_keeps_retry {B : Type} `{I2C B} (dev val retry : Z)
  (fuel : nat) :
  forall (valR : Z) (b b' : B) (r : Z),
    valueLoop fuel dev val retry valR b = (Done r, b') -> r = retry.
Proof.
  induction fuel as [| fuel IH]; intros valR b b' r; cbn [valueLoop];
    destruct ((retry >? 0) && negb (valR =? val)).
  - discriminate.
  - now intros [= <- _].
  - destruct (relaySet dev val b) as [rc b1].
    destruct (negb (OK =? rc)); [discriminate |].
    destruct (relayGet dev b1) as [[valR' |] b2]; [apply IH | discriminate].
  - now intros [= <- _].
Qed.

(** X17: on any bus and for any positive [RETRY_TIMES], the whole-register
    write-verify never leaves through its exhaustion check: the counter
    tested there still has its initial value. *)
Theorem verifyValue_never_exhausts {B : Type} `{I2C B}
  (p : positive) (fuel : nat) (dev val : Z) (b : B) :
  fst (verifyValue (Z.pos p) fuel dev val b) <> Exit1 VerifyExhausted.
Proof.
  unfold verifyValue.
  destruct (valueLoop fuel dev val (Z.pos p) (-1) b) as [[r | why |] b1] eqn:E.
  - apply valueLoop_keeps_retry in E. subst r. cbn. discriminate.
  - cbn. intros [= ->].
    revert E. generalize (-1). revert b.
    induction fuel as [| fuel IH]; intros b valR; cbn [valueLoop];
      destruct ((Z.pos p >? 0) && negb (valR =? val));
      try discriminate.
    destruct (relaySet dev val b) as [rc b2].
    destruct (negb (OK =? rc)); [discriminate |].
    destruct (relayGet dev b2) as [[valR' |] b3]; [apply IH | discriminate].
  - cbn. discriminate.
Qed.

(** ** The write and read commands together *)

Lemma channelLoop_matched_any {B : Type} `{I2C B}
  (fuel : nat) (dev pin state retry : Z) (b : B) :
  channelLoop fuel dev pin state retry state b = (Done retry, b).
Proof.
  destruct fuel; cbn [channelLoop]; rewrite Z.eqb_refl;
    now rewrite andb_false_r.
Qed.

Lemma inport_after_ON (c : Z) (e : Expander) :
  inport (mkExpander (cfg_reg e) (u8 (setByte ON (inport e) c)) (in_pins e))
  = readback_on (inport e) c.
Proof.
  unfold inport at 1, readback_on, setByte. cbn [out_reg in_pins].
  change (ON =? OFF) with false. cbv iota. now rewrite inport_low.
Qed.

Lemma chState_after_set (c state : Z) (e : Expander) :
  1 <= c <= 4 -> state = ON \/ state = OFF ->
  chState
    (inport (mkExpander (cfg_reg e) (u8 (setByte state (inport e) c))
               (in_pins e))) c = state.
Proof.
  intros Hc [-> | ->].
  - rewrite inport_after_ON.
    assert (U := forall_upto2_spec _ _ _ readback_on_table (inport e) (c - 1)
                   (inport_byte e) ltac:(lia)).
    cbv beta zeta in U. replace (c - 1 + 1) with c in U by lia.
    apply andb_prop in U. destruct U as [U _].
    apply andb_prop in U. destruct U as [U _]. now apply Z.eqb_eq.
  - rewrite inport_after_OFF.
    assert (U := forall_upto2_spec _ _ _ readback_off_table (inport e) (c - 1)
                   (inport_byte e) ltac:(lia)).
    cbv beta zeta in U. replace (c - 1 + 1) with c in U by lia.
    apply andb_prop in U. destruct U as [U _].
    apply andb_prop in U. destruct U as [U _]. now apply Z.eqb_eq.
Qed.

(** On a board that answers, the single-channel write-verify needs one
    pass; it succeeds when the budget is at least two. *)
Lemma verifyChannel_Expander
  (RETRY_TIMES : Z) (fuel : nat) (dev c state : Z) (e : Expander) :
  2 <= RETRY_TIMES -> (1 <= fuel)%nat ->
  1 <= c <= 4 -> state = ON \/ state = OFF ->
  verifyChannel RETRY_TIMES fuel dev c state e
  = (Done tt, mkExpander (cfg_reg e) (u8 (setByte state (inport e) c))
                (in_pins e)).
Proof.
  intros HR Hfuel Hc Hst. destruct fuel as [| fuel]; [lia |].
  unfold verifyChannel. cbn [channelLoop].
  replace (RETRY_TIMES >? 0) with true by (symmetry; lia).
  replace (STATE_COUNT =? state) with false
    by (destruct Hst as [-> | ->]; reflexivity).
  cbn [negb andb].
  rewrite (u8_pin c Hc), (relayChSet_Expander dev c state e Hc Hst).
  change (negb (OK =? OK)) with false. cbv iota.
  unfold relayChGet. rewrite (bad_channel_false c Hc).
  cbn [i2cMem8Read Expander_I2C].
  rewrite (chState_after_set c state e Hc Hst), channelLoop_matched_any.
  replace (RETRY_TIMES - 1 =? 0) with false by (symmetry; lia).
  reflexivity.
Qed.

Lemma init_board_cfg (e : Expander) : cfg_reg (init_board e) = 0x0f.
Proof.
  unfold init_board. destruct (Z.eqb_spec (cfg_reg e) 15); auto.
Qed.

Lemma init_board_fixed (e : Expander) : cfg_reg e = 0x0f -> init_board e = e.
Proof. intros E. unfold init_board. now rewrite E. Qed.

(** X18: on a board that answers, with a budget of at least two, [write
    <id> <c> on] (or [off]) succeeds, and [read <id> <c>] then prints 1
    (respectively 0). *)
Theorem write_then_read_channel
  (base RETRY_TIMES : Z) (fuel : nat) (stack c : Z) (on : bool)
  (e : Expander) :
  0 <= stack <= 7 -> 1 <= c <= 4 -> 2 <= RETRY_TIMES -> (1 <= fuel)%nat ->
  let w := doRelayWrite base RETRY_TIMES fuel
             (WriteChannel stack c (if on then ArgOn else ArgOff)) e in
  fst w = Done tt
  /\ fst (doRelayRead base (ReadChannel stack c) (snd w))
     = Done (if on then 1 else 0).
Proof.
  intros Hs Hc HR Hfuel. cbv zeta.
  assert (Hpin : (c <? CHANNEL_NR_MIN) || (c >? RELAY_CH_NR_MAX) = false)
    by (apply (bad_channel_false c Hc)).
  assert (W : doRelayWrite base RETRY_TIMES fuel
                (WriteChannel stack c (if on then ArgOn else ArgOff)) e
              = (Done tt,
                 mkExpander (cfg_reg (init_board e))
                   (u8 (setByte (if on then ON else OFF)
                          (inport (init_board e)) c))
                   (in_pins (init_board e)))).
  { unfold doRelayWrite. rewrite (doBoardInit_Expander base stack e Hs).
    change (3 <=? 0) with false. cbv iota. rewrite Hpin.
    destruct on; apply verifyChannel_Expander; auto. }
  rewrite W. cbn [fst snd]. split; [reflexivity |].
  set (e1 := mkExpander _ _ _).
  assert (E1 : init_board e1 = e1)
    by (apply init_board_fixed; apply init_board_cfg).
  unfold doRelayRead. rewrite (doBoardInit_Expander base stack e1 Hs), E1.
  change (3 <=? 0) with false. cbv iota. rewrite Hpin.
  unfold relayChGet. rewrite (u8_pin c Hc), (bad_channel_false c Hc).
  cbn [i2cMem8Read Expander_I2C]. unfold e1.
  rewrite (chState_after_set c (if on then ON else OFF) (init_board e) Hc)
    by (destruct on; auto).
  destruct on; reflexivity.
Qed.

(** The spec's end-to-end example, on a board fresh from power-up. *)
Lemma write_then_read_channel_witness :
  let w := doRelayWrite 0x38 10 10 (WriteChannel 0 2 ArgOn)
             (mkExpander 0xff 0xff 0x0f) in
  fst w = Done tt
  /\ fst (doRelayRead 0x38 (ReadChannel 0 2) (snd w)) = Done 1.
Proof.
  apply (write_then_read_channel 0x38 10 10 0 2 true
           (mkExpander 0xff 0xff 0x0f)).
  - lia.
  - lia.
  - lia.
  - apply Nat.leb_le. reflexivity.
Defined.

(** X19: on a board that answers, for a positive budget and a value in
    [0,15], [write <id> <val>] succeeds after one pass and [read <id>] then
    prints that value. *)
Theorem write_then_read_value
  (base RETRY_TIMES : Z) (fuel : nat) (stack val : Z) (e : Expander) :
  0 <= stack <= 7 -> 0 <= val <= 15 -> 0 < RETRY_TIMES -> (1 <= fuel)%nat ->
  let w := doRelayWrite base RETRY_TIMES fuel (WriteValue stack val) e in
  fst w = Done tt
  /\ fst (doRelayRead base (ReadAll stack) (snd w)) = Done val.
Proof.
  intros Hs Hval HR Hfuel. cbv zeta.
  destruct fuel as [| fuel]; [lia |].
  assert (Hv : Z.land val 15 = val)
    by (rewrite land_15_mod; apply Z.mod_small; lia).
  assert (W : doRelayWrite base RETRY_TIMES (S fuel) (WriteValue stack val) e
              = (Done tt, snd (relaySet 3 val (init_board e)))).
  { unfold doRelayWrite. rewrite (doBoardInit_Expander base stack e Hs).
    change (3 <=? 0) with false. cbv iota.
    replace ((val <? 0) || (val >? 255)) with false
      by (symmetry; apply orb_false_iff; lia).
    unfold verifyValue. cbn [valueLoop].
    replace (RETRY_TIMES >? 0) with true by (symmetry; lia).
    replace (-1 =? val) with false by (symmetry; lia).
    cbn [negb andb].
    pose proof (relaySet_readback 3 val (init_board e)) as G.
    destruct (relaySet 3 val (init_board e)) as [rc e1] eqn:ES.
    assert (rc = OK) by (unfold relaySet in ES; cbn in ES; congruence).
    subst rc. change (negb (OK =? OK)) with false. cbv iota.
    cbn [snd] in G. rewrite G, Hv.
    destruct fuel; cbn [valueLoop]; rewrite Z.eqb_refl, andb_false_r;
      replace (RETRY_TIMES =? 0) with false by (symmetry; lia);
      reflexivity. }
  rewrite W. cbn [fst snd]. split; [reflexivity |].
  set (e1 := snd (relaySet 3 val (init_board e))).
  assert (E1 : init_board e1 = e1).
  { apply init_board_fixed. unfold e1, relaySet.
    cbn [i2cMem8Write Expander_I2C snd cfg_reg]. apply init_board_cfg. }
  unfold doRelayRead. rewrite (doBoardInit_Expander base stack e1 Hs), E1.
  change (3 <=? 0) with false. cbv iota.
  unfold e1. rewrite relaySet_readback, Hv. reflexivity.
Qed.

Lemma write_then_read_value_witness :
  let w := doRelayWrite 0x38 10 1 (WriteValue 0 10)
             (mkExpander 0xff 0xff 0x0f) in
  fst w = Done tt /\ fst (doRelayRead 0x38 (ReadAll 0) (snd w)) = Done 10.
Proof.
  apply (write_then_read_value 0x38 10 1 0 10 (mkExpander 0xff 0xff 0x0f)).
  - lia.
  - lia.
  - lia.
  - apply Nat.leb_le. reflexivity.
Defined.

(** X20: on any bus, a write command with a relay number outside [1,4], a
    numeric state outside [0,1] or a register value outside [0,255] leaves
    through [exit(1)]; the bus has then seen what [doBoardInit] did and
    nothing else.  A wrong argument count exits before the board is
    opened. *)
Theorem doRelayWrite_rejects {B : Type} `{I2C B}
  (base RETRY_TIMES : Z) (fuel : nat) (stack pin pin' n val : Z)
  (st : StateArg) (b : B) :
  pin < 1 \/ pin > 4 -> n >= 2 \/ n < 0 -> val < 0 \/ val > 255 ->
  let b1 := snd (doBoardInit base stack b) in
  (exists why, doRelayWrite base RETRY_TIMES fuel
                 (WriteChannel stack pin st) b = (Exit1 why, b1))
  /\ (exists why, doRelayWrite base RETRY_TIMES fuel
                    (WriteChannel stack pin' (ArgNum n)) b = (Exit1 why, b1))
  /\ (exists why, doRelayWrite base RETRY_TIMES fuel
                    (WriteValue stack val) b = (Exit1 why, b1))
  /\ doRelayWrite base RETRY_TIMES fuel (WriteUsage stack) b
     = (Exit1 InvalidArgument, b).
Proof.
  intros Hpin Hn Hval. cbv zeta. unfold doRelayWrite.
  destruct (doBoardInit base stack b) as [dev b1]. cbn [snd].
  destruct (dev <=? 0).
  - repeat split; eexists; reflexivity.
  - replace ((pin <? CHANNEL_NR_MIN) || (pin >? RELAY_CH_NR_MAX)) with true
      by (symmetry; apply (bad_channel_true pin Hpin)).
    replace ((n >=? STATE_COUNT) || (n <? 0)) with true
      by (symmetry; apply orb_true_iff; unfold STATE_COUNT; lia).
    replace ((val <? 0) || (val >? 255)) with true
      by (symmetry; apply orb_true_iff; lia).
    repeat split; try (eexists; reflexivity).
    destruct ((pin' <? CHANNEL_NR_MIN) || (pin' >? RELAY_CH_NR_MAX));
      eexists; reflexivity.
Qed.

Lemma doRelayWrite_rejects_witness :
  let b1 := snd (doBoardInit 0x38 0 (healthy (fun _ => 0xff))) in
  (exists why, doRelayWrite 0x38 10 10 (WriteChannel 0 5 ArgOn)
                 (healthy (fun _ => 0xff)) = (Exit1 why, b1))
  /\ (exists why, doRelayWrite 0x38 10 10 (WriteChannel 0 1 (ArgNum 2))
                    (healthy (fun _ => 0xff)) = (Exit1 why, b1))
  /\ (exists why, doRelayWrite 0x38 10 10 (WriteValue 0 256)
                    (healthy (fun _ => 0xff)) = (Exit1 why, b1))
  /\ doRelayWrite 0x38 10 10 (WriteUsage 0) (healthy (fun _ => 0xff))
     = (Exit1 InvalidArgument, healthy (fun _ => 0xff)).
Proof.
  apply (doRelayWrite_rejects 0x38 10 10 0 5 1 2 256 ArgOn
           (healthy (fun _ => 0xff))); lia.
Defined.

Lemma relayGet_wlog (dev : Z) (m : Mock) :
  wlog (snd (relayGet dev m)) = wlog m.
Proof.
  unfold relayGet. cbn [i2cMem8Read Mock_I2C].
  destruct (rd m (nrd m)); reflexivity.
Qed.

Lemma inGet_wlog (dev : Z) (m : Mock) : wlog (snd (inGet dev m)) = wlog m.
Proof.
  unfold inGet. cbn [i2cMem8Read Mock_I2C].
  destruct (rd m (nrd m)); reflexivity.
Qed.

Lemma inChGet_wlog (dev c : Z) (m : Mock) :
  wlog (snd (inChGet dev c m)) = wlog m.
Proof.
  unfold inChGet. destruct (bad_channel c); [reflexivity |].
  cbn [i2cMem8Read Mock_I2C]. destruct (rd m (nrd m)); reflexivity.
Qed.

(** X21: the read commands never write on their own: whatever the
    arguments and the answers of the bus, the writes seen after [read] or
    [inread] are those of [doBoardInit]. *)
Theorem read_commands_issue_no_write (base : Z) (args : ReadArgs) (m : Mock) :
  wlog (snd (doRelayRead base args m))
  = wlog (snd (doBoardInit base (read_stack args) m))
  /\ wlog (snd (doInRead base args m))
     = wlog (snd (doBoardInit base (read_stack args) m)).
Proof.
  unfold doRelayRead, doInRead.
  replace (match args with
           | ReadChannel stack _ => stack
           | ReadAll stack => stack
           | ReadUsage stack => stack
           end) with (read_stack args) by reflexivity.
  destruct (doBoardInit base (read_stack args) m) as [dev m1]. cbn [snd].
  destruct (dev <=? 0); [split; reflexivity |].
  destruct args as [stack pin | stack | stack]; cbn [read_stack].
  - split.
    + destruct ((pin <? CHANNEL_NR_MIN) || (pin >? RELAY_CH_NR_MAX));
        [reflexivity |].
      pose proof (relayChGet_wlog dev (u8 pin) m1) as L.
      destruct (relayChGet dev (u8 pin) m1) as [[state |] m2]; exact L.
    + destruct ((pin <? CHANNEL_NR_MIN) || (pin >? IN_CH_NR_MAX));
        [reflexivity |].
      pose proof (inChGet_wlog dev (u8 pin) m1) as L.
      destruct (inChGet dev (u8 pin) m1) as [[state |] m2]; exact L.
  - split.
    + pose proof (relayGet_wlog dev m1) as L.
      destruct (relayGet dev m1) as [[v |] m2]; exact L.
    + pose proof (inGet_wlog dev m1) as L.
      destruct (inGet dev m1) as [[v |] m2]; exact L.
  - split; reflexivity.
Qed.

(** ** Enumeration *)

Lemma advance_0 (m : Mock) : advance m 0 [] = m.
Proof. unfold advance. rewrite app_nil_r. now destruct m. Qed.

Lemma boardCheck_Mock (hwAdd : Z) (m : Mock) :
  fd m (Z.lxor hwAdd 0x07) <> -1 ->
  boardCheck hwAdd m
  = (if responds m 0 then OK else ERROR, advance m 1 []).
Proof.
  intros Hfd. unfold boardCheck, responds, advance.
  cbn [i2cSetup i2cMem8Read Mock_I2C fd rd wr nrd wlog Nat.add].
  apply Z.eqb_neq in Hfd. rewrite Hfd, app_nil_r.
  destruct (rd m (nrd m)); reflexivity.
Qed.

Lemma listLoop_Mock (base : Z) (m0 : Mock) (n : nat) :
  (forall a, fd m0 a <> -1) ->
  forall (s : nat) (ids : list Z),
    listLoop base (map Z.of_nat (seq s n)) ids (advance m0 s [])
    = (ids ++ map Z.of_nat (filter (responds m0) (seq s n)),
       advance m0 (n + s) []).
Proof.
  intros Hfd. induction n as [| n IH]; intros s ids;
    cbn [seq map listLoop filter].
  - now rewrite app_nil_r.
  - rewrite boardCheck_Mock by apply Hfd.
    rewrite advance_advance. cbn [app].
    replace (responds (advance m0 s []) 0) with (responds m0 s)
      by reflexivity.
    replace (1 + s)%nat with (S s) by reflexivity.
    rewrite IH. replace (n + S s)%nat with (S n + s)%nat by lia.
    destruct (responds m0 s); cbn [Z.eqb OK ERROR map app].
    + now rewrite <- app_assoc.
    + reflexivity.
Qed.

(** X22: when the bus can be opened at every address, [doList] reads the
    direction register once per stack level 0 to 7 and writes nothing; the
    boards it reports are exactly the levels whose read succeeded, whatever
    byte was read, printed from the highest level to the lowest. *)
Theorem doList_reports_responders (base : Z) (m : Mock) :
  (forall a, fd m a <> -1) ->
  let found := filter (responds m) (seq 0 8) in
  doList base m
  = ((Z.of_nat (length found), rev (map Z.of_nat found)), advance m 8 []).
Proof.
  intros Hfd found. unfold doList.
  change (upto 8) with (map Z.of_nat (seq 0 8)).
  rewrite <- (advance_0 m) at 1.
  rewrite (listLoop_Mock base m 8 Hfd 0 []). cbn [app].
  fold found. now rewrite length_map.
Qed.

(** Boards at levels 0, 2, 4 and 6 answer. *)
Lemma doList_reports_responders_witness :
  let m := mkMock (fun _ => 3)
             (fun n => if Nat.even n then Some 0xff else None)
             (fun _ => true) 0 [] in
  doList 0x38 m = ((4, [6; 4; 2; 0]), advance m 8 []).
Proof.
  intros m. apply (doList_reports_responders 0x38 m).
  intros a. simpl. lia.
Defined.

(** ** The self-test on a board that answers *)

Lemma sweep_steps_table :
  forall_upto 256 (fun b => forall_upto 4 (fun i =>
    let c := idx relayOrder i in
    let relVal := Z.shiftl (u8 1) (c - 1) in
    (1 <=? c) && (c <=? 4)
    && negb (Z.land (IOToRelay (readback_on b c)) relVal =? 0)
    && (Z.land (IOToRelay (readback_off b c)) relVal =? 0)
    && negb (Z.land 0xff relVal =? 0))) = true.
Proof. vm_compute. reflexivity. Qed.

Lemma sweep_step_facts (i : Z) (e : Expander) :
  0 <= i < 4 ->
  let c := idx relayOrder i in
  let relVal := Z.shiftl (u8 1) (c - 1) in
  1 <= c <= 4
  /\ (Z.land (IOToRelay (inport (set_board ON c e))) relVal =? 0) = false
  /\ (Z.land (IOToRelay (inport (set_board OFF c e))) relVal =? 0) = true
  /\ (Z.land 0xff relVal =? 0) = false.
Proof.
  intros Hi c relVal.
  assert (U := forall_upto2_spec _ _ _ sweep_steps_table (inport e) i
                 (inport_byte e) Hi).
  cbv beta zeta in U. fold c in U. fold relVal in U.
  apply andb_prop in U. destruct U as [U U5].
  apply andb_prop in U. destruct U as [U U4].
  apply andb_prop in U. destruct U as [U U3].
  apply andb_prop in U. destruct U as [U1 U2].
  unfold set_board. rewrite inport_after_ON, inport_after_OFF.
  apply negb_true_iff in U3, U5.
  repeat split; try assumption; lia.
Qed.

Lemma onLoop_Expander (RETRY_TIMES : Z) (fuel : nat) (dev i : Z)
  (e : Expander) :
  0 < RETRY_TIMES -> (1 <= fuel)%nat -> 0 <= i < 4 ->
  onLoop fuel dev (idx relayOrder i) RETRY_TIMES 0
    (Z.shiftl (u8 1) (idx relayOrder i - 1)) e
  = Some (RETRY_TIMES, set_board ON (idx relayOrder i) e).
Proof.
  intros HR Hfuel Hi.
  destruct (sweep_step_facts i e Hi) as (Hc & Hon & _ & _).
  destruct fuel as [| fuel]; [lia |]. cbn [onLoop].
  replace (RETRY_TIMES >? 0) with true by (symmetry; lia).
  rewrite Z.land_0_l. cbn [Z.eqb andb].
  rewrite (relayChSet_Expander dev _ ON e Hc (or_introl eq_refl)).
  change (negb (OK =? OK)) with false. cbv iota.
  unfold relayGet at 1. cbn [i2cMem8Read Expander_I2C].
  fold (set_board ON (idx relayOrder i) e).
  destruct fuel; cbn [onLoop]; rewrite Hon, andb_false_r; reflexivity.
Qed.

Lemma offLoop_Expander (RETRY_TIMES : Z) (fuel : nat) (dev i : Z)
  (e : Expander) :
  0 < RETRY_TIMES -> (1 <= fuel)%nat -> 0 <= i < 4 ->
  offLoop fuel dev (idx relayOrder i) RETRY_TIMES 0xff
    (Z.shiftl (u8 1) (idx relayOrder i - 1)) e
  = Some (RETRY_TIMES, set_board OFF (idx relayOrder i) e).
Proof.
  intros HR Hfuel Hi.
  destruct (sweep_step_facts i e Hi) as (Hc & _ & Hoff & Hff).
  destruct fuel as [| fuel]; [lia |]. cbn [offLoop].
  replace (RETRY_TIMES >? 0) with true by (symmetry; lia).
  rewrite Hff. cbn [negb andb].
  rewrite (relayChSet_Expander dev _ OFF e Hc (or_intror eq_refl)).
  change (negb (OK =? OK)) with false. cbv iota.
  unfold relayGet at 1. cbn [i2cMem8Read Expander_I2C].
  fold (set_board OFF (idx relayOrder i) e).
  destruct fuel; cbn [offLoop]; rewrite Hoff; cbn [negb];
    rewrite andb_false_r; reflexivity.
Qed.

(** A sweep over channels of the table completes; what it yields is the
    last answer of the watcher. *)
Lemma sweep_Expander (RETRY_TIMES : Z) (thread : nat -> Z) (on : bool)
  (fuel : nat) (dev : Z) (ixs : list Z) :
  0 < RETRY_TIMES -> (1 <= fuel)%nat ->
  Forall (fun i => 0 <= i < 4) ixs ->
  forall (r0 : Z) (t : TestState Expander),
  exists r t',
    sweep RETRY_TIMES thread on fuel dev ixs r0 t = (Done r, t')
    /\ (ixs = [] -> r = r0 /\ t' = t)
    /\ (ixs <> [] ->
        (polls t < polls t')%nat /\ r = thread (polls t' - 1)%nat).
Proof.
  intros HR Hfuel Hix.
  induction Hix as [| i ixs Hi Hix IH]; intros r0 t.
  - exists r0, t. cbn. repeat split; congruence.
  - cbn [sweep].
    destruct (negb (thread (polls t) =? 0)) eqn:K.
    + eexists _, _. split; [reflexivity |].
      split; [discriminate |]. intros _. cbn [polls].
      split; [lia |]. f_equal. lia.
    + assert (L : (if on
                   then onLoop fuel dev (idx relayOrder i) RETRY_TIMES 0
                          (Z.shiftl (u8 1) (idx relayOrder i - 1))
                   else offLoop fuel dev (idx relayOrder i) RETRY_TIMES 0xff
                          (Z.shiftl (u8 1) (idx relayOrder i - 1))) (bus t)
                  = Some (RETRY_TIMES,
                          set_board (if on then ON else OFF)
                            (idx relayOrder i) (bus t))).
      { destruct on; [apply onLoop_Expander | apply offLoop_Expander];
          assumption. }
      cbn [bus polls]. rewrite L.
      replace (RETRY_TIMES =? 0) with false by (symmetry; lia).
      set (t2 := mkTestState _ (S (polls t))).
      destruct (IH (thread (polls t)) t2) as (r & t' & E & Hnil & Hcons).
      exists r, t'. split; [exact E |]. split; [discriminate |].
      intros _. destruct ixs as [| j ixs'].
      * destruct (Hnil eq_refl) as [-> ->]. cbn [t2 polls].
        split; [lia |]. f_equal. lia.
      * destruct (Hcons ltac:(discriminate)) as [P Q].
        cbn [t2 polls] in P. split; [lia | exact Q].
Qed.

Lemma upto_4_range : Forall (fun i => 0 <= i < 4) (upto RELAY_CH_NR_MAX).
Proof. repeat constructor; lia. Qed.

Lemma upto_4_nonempty : upto RELAY_CH_NR_MAX <> [].
Proof. discriminate. Qed.

Lemma testLoop_not_aborted (RETRY_TIMES : Z) (thread : nat -> Z) (dev : Z)
  (fuel : nat) :
  0 < RETRY_TIMES ->
  forall (r0 : Z) (t : TestState Expander) (why : Failure),
    fst (testLoop RETRY_TIMES thread fuel dev r0 t) <> Exit1 why.
Proof.
  intros HR. induction fuel as [| fuel IH]; intros r0 t why;
    cbn [testLoop]; destruct (r0 =? 0); try (cbn; discriminate).
  destruct (sweep_Expander RETRY_TIMES thread true (S fuel) dev _ HR
              ltac:(lia) upto_4_range r0 t) as (r1 & t1 & E1 & _).
  rewrite E1.
  destruct (sweep_Expander RETRY_TIMES thread false (S fuel) dev _ HR
              ltac:(lia) upto_4_range r1 t1) as (r2 & t2 & E2 & _).
  rewrite E2. apply IH.
Qed.

(** X23: on a board that answers, with a stack level in [0,7] and a
    positive budget, the self-test never takes its failure exit, whatever
    the watcher does; when it reports, all relays read back off. *)
Theorem doTest_never_aborts
  (base RETRY_TIMES : Z) (thread : nat -> Z) (YES : Z) (fuel : nat)
  (stack dev : Z) (file : bool) (t : TestState Expander) :
  0 <= stack <= 7 -> 0 < RETRY_TIMES ->
  let r := doTest base RETRY_TIMES thread YES fuel stack file t in
  fst r <> Aborted
  /\ (fst r <> Sweeping -> fst (relayGet dev (bus (snd r))) = Some 0).
Proof.
  intros Hs HR. cbv zeta. unfold doTest.
  rewrite (doBoardInit_Expander base stack (bus t) Hs).
  change (3 <=? 0) with false. cbv iota.
  pose proof (testLoop_not_aborted RETRY_TIMES thread 3 fuel HR 0
                (mkTestState (init_board (bus t)) (polls t))) as N.
  destruct (testLoop RETRY_TIMES thread fuel 3 0
              (mkTestState (init_board (bus t)) (polls t)))
    as [[r | why |] t2]; cbn [fst] in N.
  - pose proof (relaySet_readback dev 0 (bus t2)) as G.
    unfold relaySet in *. cbn [i2cMem8Write Expander_I2C snd] in *.
    cbn [fst snd bus]. split; [discriminate |]. intros _.
    now rewrite G.
  - exfalso. now apply (N why).
  - cbn. split; [discriminate | congruence].
Qed.

Lemma doTest_never_aborts_witness :
  let r := doTest 0x38 10 (fun n => if (11 <=? n)%nat then 7 else 0) 7 3 0
             false (mkTestState (mkExpander 0xff 0xff 0x0f) 0) in
  fst r <> Aborted
  /\ (fst r <> Sweeping -> fst (relayGet 3 (bus (snd r))) = Some 0).
Proof.
  apply (doTest_never_aborts 0x38 10
           (fun n => if (11 <=? n)%nat then 7 else 0) 7 3 0 3 false
           (mkTestState (mkExpander 0xff 0xff 0x0f) 0)); lia.
Defined.

Lemma testLoop_key (RETRY_TIMES : Z) (thread : nat -> Z) (dev key : Z)
  (n : nat) :
  0 < RETRY_TIMES -> key <> 0 ->
  (forall k, (k < n)%nat -> thread k = 0) ->
  (forall k, (n <= k)%nat -> thread k = key) ->
  forall (d fuel : nat) (t : TestState Expander),
    (n <= polls t + d)%nat -> (d + 1 <= fuel)%nat ->
    exists t', testLoop RETRY_TIMES thread fuel dev 0 t = (Done key, t').
Proof.
  intros HR Hkey Hlow Hhigh.
  induction d as [| d IH]; intros fuel t Hd Hfuel;
    (destruct fuel as [| fuel]; [lia |]); cbn [testLoop Z.eqb];
    destruct (sweep_Expander RETRY_TIMES thread true (S fuel) dev _ HR
                ltac:(lia) upto_4_range 0 t) as (r1 & t1 & E1 & _ & C1);
    destruct (C1 upto_4_nonempty) as [P1 _]; rewrite E1;
    destruct (sweep_Expander RETRY_TIMES thread false (S fuel) dev _ HR
                ltac:(lia) upto_4_range r1 t1) as (r2 & t2 & E2 & _ & C2);
    destruct (C2 upto_4_nonempty) as [P2 Q2]; rewrite E2.
  - rewrite Q2, Hhigh by lia. exists t2.
    destruct fuel; cbn [testLoop]; apply Z.eqb_neq in Hkey; now rewrite Hkey.
  - destruct (Nat.le_gt_cases n (polls t2 - 1)) as [G | G].
    + rewrite Q2, Hhigh by exact G. exists t2.
      destruct fuel; cbn [testLoop]; apply Z.eqb_neq in Hkey;
        now rewrite Hkey.
    + rewrite Q2, Hlow by exact G. apply IH; lia.
Qed.

(** X24: on a board that answers, with a stack level in [0,7] and a
    positive budget, once the watcher has posted a key (its answer is 0 for
    the first [n] polls and [key] afterwards) the self-test ends: it reports
    PASS exactly when the key is [YES], to the result file when one is open,
    and all relays read back off. *)
Theorem doTest_reports_key
  (base RETRY_TIMES : Z) (thread : nat -> Z) (YES key : Z) (n fuel : nat)
  (stack dev : Z) (file : bool) (e : Expander) :
  0 <= stack <= 7 -> 0 < RETRY_TIMES -> key <> 0 ->
  (forall k, (k < n)%nat -> thread k = 0) ->
  (forall k, (n <= k)%nat -> thread k = key) ->
  (n + 1 <= fuel)%nat ->
  let r := doTest base RETRY_TIMES thread YES fuel stack file
             (mkTestState e 0) in
  fst r = Reported (key =? YES) file
  /\ fst (relayGet dev (bus (snd r))) = Some 0.
Proof.
  intros Hs HR Hkey Hlow Hhigh Hfuel. cbv zeta. unfold doTest.
  cbn [bus polls]. rewrite (doBoardInit_Expander base stack e Hs).
  change (3 <=? 0) with false. cbv iota.
  destruct (testLoop_key RETRY_TIMES thread 3 key n HR Hkey Hlow Hhigh
              n fuel (mkTestState (init_board e) 0)) as (t2 & E).
  - cbn [polls]. lia.
  - exact Hfuel.
  - rewrite E.
    pose proof (relaySet_readback dev 0 (bus t2)) as G.
    unfold relaySet in *. cbn [i2cMem8Write Expander_I2C snd] in *.
    cbn [fst snd bus]. split; [reflexivity |]. now rewrite G.
Qed.

(** The operator presses the confirming key after eleven polls. *)
Lemma doTest_reports_key_witness :
  let r := doTest 0x38 10 (fun n => if (11 <=? n)%nat then 7 else 0) 7 12 0
             false (mkTestState (mkExpander 0xff 0xff 0x0f) 0) in
  fst r = Reported (7 =? 7) false
  /\ fst (relayGet 3 (bus (snd r))) = Some 0.
Proof.
  apply (doTest_reports_key 0x38 10
           (fun n => if (11 <=? n)%nat then 7 else 0) 7 7 11 12 0 3 false
           (mkExpander 0xff 0xff 0x0f)).
  - lia.
  - lia.
  - discriminate.
  - intros k Hk. apply Nat.leb_gt in Hk. now rewrite Hk.
  - intros k Hk. apply Nat.leb_le in Hk. now rewrite Hk.
  - apply Nat.leb_le. reflexivity.
Defined.

(** ** The self-test with a readback that never shows the relay *)

Lemma onLoop_spins (dev ch relVal : Z) (p : positive) (fuel : nat) :
  1 <= ch <= 4 ->
  forall (valR : Z) (m : Mock),
    Z.land valR relVal = 0 ->
    (forall n, wr m n = true) ->
    (forall n, exists b, rd m n = Some b /\ Z.land (IOToRelay b) relVal = 0) ->
    onLoop fuel dev ch (Z.pos p) valR relVal m = None.
Proof.
  intros Hch. induction fuel as [| fuel IH]; intros valR m Hv Hw Hrd;
    cbn [onLoop]; rewrite Hv; change (Z.pos p >? 0) with true;
    cbn [Z.eqb andb]; [reflexivity |].
  destruct (Hrd (nrd m)) as (b0 & E0 & _).
  rewrite (relayChSet_Mock dev ch ON Hch (or_introl eq_refl) m b0 E0), Hw.
  cbn [write_rc]. change (negb (OK =? OK)) with false. cbv iota.
  unfold relayGet. cbn [i2cMem8Read Mock_I2C advance fd rd wr nrd wlog Nat.add].
  destruct (Hrd (S (nrd m))) as (b1 & E1 & D1). rewrite E1.
  apply IH; [exact D1 | exact Hw | exact Hrd].
Qed.

Lemma doBoardInit_answers (base stack : Z) (m : Mock) :
  0 <= stack <= 7 ->
  fd m (stack_add base stack) <> -1 ->
  (forall n, wr m n = true) -> (forall n, rd m n <> None) ->
  exists r ws,
    doBoardInit base stack m = (fd m (stack_add base stack), advance m r ws).
Proof.
  intros Hs Hfd Hw Hrd. unfold doBoardInit.
  replace ((stack <? 0) || (stack >? 7)) with false
    by (symmetry; apply orb_false_iff; lia).
  cbn [i2cSetup i2cMem8Read i2cMem8Write Mock_I2C fd rd wr nrd wlog].
  apply Z.eqb_neq in Hfd. rewrite Hfd.
  destruct (rd m (nrd m)) as [b |] eqn:E; [| now apply Hrd in E].
  destruct (negb (b =? 15)).
  - rewrite !Hw. cbn [write_rc]. change (0 >? OK) with false. cbv iota.
    exists 1%nat,
      [(RELAY8_CFG_REG_ADD, 15); (RELAY8_OUTPORT_REG_ADD, 0)].
    unfold advance. cbn [Nat.add]. now rewrite <- app_assoc.
  - exists 1%nat, []. unfold advance. cbn [Nat.add]. now rewrite app_nil_r.
Qed.

(** X25: when every transfer succeeds but no byte read shows relay 1 on,
    the self-test never gets past its first step, for any positive budget:
    after any amount of fuel it is still sweeping and has polled the
    watcher at most once, so a key press is never seen. *)
Theorem doTest_stuck_on_first_relay
  (base : Z) (p : positive) (thread : nat -> Z) (YES : Z) (fuel : nat)
  (stack : Z) (file : bool) (t : TestState Mock) :
  0 <= stack <= 7 ->
  0 < fd (bus t) (stack_add base stack) ->
  (forall n, wr (bus t) n = true) ->
  (forall n, exists b,
      rd (bus t) n = Some b /\ Z.land (IOToRelay b) 1 = 0) ->
  thread (polls t) = 0 ->
  let r := doTest base (Z.pos p) thread YES fuel stack file t in
  fst r = Sweeping /\ (polls (snd r) <= S (polls t))%nat.
Proof.
  intros Hs Hfd Hw Hrd Hth. cbv zeta. unfold doTest.
  destruct (doBoardInit_answers base stack (bus t) Hs ltac:(lia) Hw)
    as (k & ws & E).
  { intros n. destruct (Hrd n) as (b & -> & _). discriminate. }
  rewrite E.
  replace (fd (bus t) (stack_add base stack) <=? 0) with false
    by (symmetry; lia).
  destruct fuel as [| fuel]; [cbn; auto |].
  cbn [testLoop Z.eqb].
  change (upto RELAY_CH_NR_MAX) with [0; 1; 2; 3].
  cbn [sweep polls bus]. rewrite Hth. cbn [Z.eqb negb].
  rewrite onLoop_spins.
  - cbn. auto.
  - cbn. lia.
  - reflexivity.
  - exact Hw.
  - exact Hrd.
Qed.

(** A bus on which every byte read is the sentinel [0x0f]: the relays
    never read back as on. *)
Lemma doTest_stuck_on_first_relay_witness :
  let r := doTest 0x38 10 (fun n => if (1 <=? n)%nat then 7 else 0) 7 100 0
             false (mkTestState initialised_mock 0) in
  fst r = Sweeping /\ (polls (snd r) <= 1)%nat.
Proof.
  apply (doTest_stuck_on_first_relay 0x38 10
           (fun n => if (1 <=? n)%nat then 7 else 0) 7 100 0 false
           (mkTestState initialised_mock 0)).
  - lia.
  - reflexivity.
  - intros n. reflexivity.
  - intros n. exists 0x0f. split; reflexivity.
  - reflexivity.
Defined.

Lemma verifyValue_never_exhausts_witness :
  fst (verifyValue 10 25 3 255 (healthy (fun _ => 0xf0)))
  <> Exit1 VerifyExhausted.
Proof. apply (verifyValue_never_exhausts 10 25 3 255). Defined.
